(** * one20minutes: the contact-form endpoint of [server.js]

    A shallow embedding of the request pipeline of [POST /api/contact]:
    the upload middleware, the field normaliser, the required-field check,
    the repository insert, the mail step and the handler's [try]/[catch];
    and of the start-up code around it.

    Conventions.
    - A JavaScript string is a sequence of code units; [string] holds the
      code units below 256, which is what the multipart parser delivers
      for field values and file names in its default (latin1) setting.
    - A form value is [Undefined], a string, an array of values or an
      object without prototype: the shapes the multipart parser gives to a
      key of [req.body].
    - [process.env] and [req.body] are objects used as maps: [gmap string _].
    - Calls into the document store and the mail relay are answered by an
      oracle ([Services]); the world threads what they changed. *)

From Stdlib Require Import NArith ZArith Ascii String DecimalString DecimalPos DecimalN.
From stdpp Require Import base option list strings gmap.

Local Open Scope string_scope.
Local Open Scope list_scope.

Set Warnings "-register-all".

(** * Part I: the program *)

(** ** JavaScript values and the operators the handler uses *)

Inductive JsVal : Type :=
| Undefined
| Str (s : string)
| Arr (l : list JsVal)
| Obj (fields : list (string * JsVal)).

(** Property access on an object used as a map: a missing key reads as
    [undefined]. *)
Definition get (o : gmap string JsVal) (k : string) : JsVal :=
  match o !! k with
  | Some v => v
  | None => Undefined
  end.

(** ToBoolean: [undefined] and the empty string are falsy, every array
    (the empty one too) and every object is truthy. *)
Definition truthy (v : JsVal) : bool :=
  match v with
  | Undefined => false
  | Str s => negb (String.eqb s "")
  | Arr _ => true
  | Obj _ => true
  end.

(** [a || b] *)
Definition js_or (a b : JsVal) : JsVal := if truthy a then a else b.

(** [Array.prototype.join] on strings already converted. *)
Fixpoint join (sep : string) (l : list string) : string :=
  match l with
  | [] => ""
  | [x] => x
  | x :: rest => x +:+ sep +:+ join sep rest
  end.

(** ToString, as a template literal applies it. An array prints its
    elements separated by commas, an [undefined] element as nothing. An
    object without prototype has neither [toString] nor [valueOf]: the
    conversion throws a TypeError, here [None]. *)
Fixpoint to_string (v : JsVal) : option string :=
  match v with
  | Undefined => Some "undefined"
  | Str s => Some s
  | Arr l =>
      join "," <$>
        (fix elems (l : list JsVal) : option (list string) :=
           match l with
           | [] => Some []
           | x :: rest =>
               match match x with Undefined => Some "" | _ => to_string x end with
               | Some s =>
                   match elems rest with
                   | Some ss => Some (s :: ss)
                   | None => None
                   end
               | None => None
               end
           end) l
  | Obj _ => None
  end.

(** The string of one array element, as [join] takes it. *)
Definition elem_string (v : JsVal) : option string :=
  match v with
  | Undefined => Some ""
  | _ => to_string v
  end.

Fixpoint elem_strings (l : list JsVal) : option (list string) :=
  match l with
  | [] => Some []
  | x :: rest =>
      match elem_string x with
      | Some s =>
          match elem_strings rest with
          | Some ss => Some (s :: ss)
          | None => None
          end
      | None => None
      end
  end.

(** [l.join(sep)] on an array of values: [None] when an element cannot be
    converted. *)
Definition join_values (sep : string) (l : list JsVal) : option string :=
  join sep <$> elem_strings l.

(** [s || d] on strings. *)
Definition str_or (s d : string) : string :=
  if String.eqb s "" then d else s.

Definition LF : string := String (ascii_of_nat 10) "".

(** ** The field normaliser (server.js, lines 82-86) *)

Definition normalizeArray (value : JsVal) : list JsVal :=
  if negb (truthy value) then []
  else match value with
       | Arr l => l
       | _ => [value]
       end.

(** [normalizeArray(req.body["name[]"] || req.body.name)], lines 106-108. *)
Definition multi_field (body : gmap string JsVal) (name : string) : list JsVal :=
  normalizeArray (js_or (get body (name +:+ "[]")) (get body name)).

(** ** File-name sanitisation (server.js, lines 58-61) *)

Definition in_range (lo hi c : ascii) : bool :=
  (nat_of_ascii lo <=? nat_of_ascii c)%nat && (nat_of_ascii c <=? nat_of_ascii hi)%nat.

(** The character class [a-zA-Z0-9._-]. *)
Definition allowed (c : ascii) : bool :=
  in_range "a" "z" c || in_range "A" "Z" c || in_range "0" "9" c
  || Ascii.eqb c "." || Ascii.eqb c "_" || Ascii.eqb c "-".

(** [s.replace(/[^a-zA-Z0-9._-]/g, "_")] *)
Fixpoint safeName (s : string) : string :=
  match s with
  | EmptyString => EmptyString
  | String c rest => String (if allowed c then c else "_"%char) (safeName rest)
  end.

(** Number-to-string of a non-negative integer. [Date.now()] is a count of
    milliseconds of at most 8.64e15, where the conversion is plain decimal. *)
Definition number_to_string (n : N) : string :=
  NilEmpty.string_of_uint (N.to_uint n).

(** The [filename] callback: [`${Date.now()}-${safeName}`]. *)
Definition filename_cb (now : N) (originalname : string) : string :=
  number_to_string now +:+ "-" +:+ safeName originalname.

(** ** Numbers, and [parseInt] (line 160) *)

(** The numbers [parseInt] can return: NaN, an integer that a double
    holds, minus zero, and the infinities. *)
Inductive JsNumber : Type :=
| NaN
| Num (z : Z)
| NegZero
| Infinite (negative : bool).

(** A positive integer rounded to the nearest double, ties to even: exact
    below 2^53, 53 significant bits above. *)
Definition round53 (m : Z) : Z :=
  if (m <? 2 ^ 53)%Z then m
  else
    let e := (Z.log2 m - 52)%Z in
    let q := (m / 2 ^ e)%Z in
    let r := (m mod 2 ^ e)%Z in
    let half := (2 ^ (e - 1))%Z in
    let q' :=
      if (r <? half)%Z then q
      else if (half <? r)%Z then (q + 1)%Z
      else if Z.even q then q else (q + 1)%Z in
    (q' * 2 ^ e)%Z.

(** The number value of [sign * m], for a mathematical integer [0 <= m]. *)
Definition to_number (negative : bool) (m : Z) : JsNumber :=
  if (m =? 0)%Z then (if negative then NegZero else Num 0)
  else
    let r := round53 m in
    if (2 ^ 1024 <=? r)%Z then Infinite negative
    else Num (if negative then (- r)%Z else r).

(** White space as [parseInt] and [trim] skip it, among the code units
    below 256. *)
Definition is_space (c : ascii) : bool :=
  let n := nat_of_ascii c in
  (n =? 9)%nat || (n =? 10)%nat || (n =? 11)%nat || (n =? 12)%nat
  || (n =? 13)%nat || (n =? 32)%nat || (n =? 160)%nat.

Definition is_digit (c : ascii) : bool := in_range "0" "9" c.

Fixpoint skip_space (s : string) : string :=
  match s with
  | String c rest => if is_space c then skip_space rest else s
  | EmptyString => EmptyString
  end.

(** Reads the digits at the head of [s] onto the accumulator; [None] when
    there is none and nothing was read before. *)
Fixpoint read_digits (acc : option Z) (s : string) : option Z :=
  match s with
  | String c rest =>
      if is_digit c
      then read_digits
             (Some (10 * default 0%Z acc + (Z.of_nat (nat_of_ascii c) - 48))%Z) rest
      else acc
  | EmptyString => acc
  end.

(** What [read_digits] found, as a number. *)
Definition digits_number (negative : bool) (digits : option Z) : JsNumber :=
  match digits with
  | Some m => to_number negative m
  | None => NaN
  end.

(** [parseInt(s, 10)]: leading white space, an optional sign, then the
    longest run of decimal digits, as the nearest double; NaN when there is
    no digit. *)
Definition parseInt (s : string) : JsNumber :=
  match skip_space s with
  | String "-" rest => digits_number true (read_digits None rest)
  | String "+" rest => digits_number false (read_digits None rest)
  | t => digits_number false (read_digits None t)
  end.

(** ** Data model *)

(** The file object the upload middleware puts in [req.files]. *)
Module File.
Record t : Type := mk
  { fieldname : string;
    originalname : string;
    filename : string;
    path : string;
    mimetype : string;
    size : N }.
End File.

(** The attachment metadata the handler keeps (lines 114-120). *)
Module Attachment.
Record t : Type := mk
  { originalname : string;
    filename : string;
    path : string;
    mimetype : string;
    size : N }.
End Attachment.

(** The object handed to [Submission.create] (lines 125-144). *)
Module Submission.
Record t : Type := mk
  { created_at : string;
    full_name : JsVal;
    email : JsVal;
    phone : JsVal;
    company : JsVal;
    build_type : JsVal;
    project_type : JsVal;
    industry : JsVal;
    platform_required : list JsVal;
    timeline : JsVal;
    startup_stage : JsVal;
    budget : JsVal;
    message : JsVal;
    mvp_validation : JsVal;
    mvp_purpose : list JsVal;
    discussion_mode : list JsVal;
    referral_source : JsVal;
    attachments : list Attachment.t }.
End Submission.

(** The options of [nodemailer.createTransport] (lines 158-166). *)
Module Transport.
Record t : Type := mk
  { host : JsVal;
    port : JsNumber;
    secure : bool;
    auth_user : JsVal;
    auth_pass : JsVal }.
End Transport.

Module MailAttachment.
Record t : Type := mk
  { filename : string;
    path : string }.
End MailAttachment.

(** The argument of [transporter.sendMail] (lines 189-199). *)
Module Mail.
Record t : Type := mk
  { from : JsVal;
    to : JsVal;
    replyTo : JsVal;
    subject : string;
    text : string;
    attachments : list MailAttachment.t }.
End Mail.

Record MailInfo : Type := mkMailInfo
  { messageId : string;
    accepted : list string;
    rejected : list string }.

(** ** Configuration, services and the world *)

Record Config : Type := mkConfig
  { env : gmap string string;      (* process.env *)
    uploadsDir : string }.         (* path.join(__dirname, "uploads") *)

(** [process.env.NAME] *)
Definition env_get (cfg : Config) (name : string) : JsVal :=
  match env cfg !! name with
  | Some s => Str s
  | None => Undefined
  end.

(** [process.env.NAME || d], for a default [d] that is a string: a string. *)
Definition env_or (cfg : Config) (name d : string) : string :=
  match env cfg !! name with
  | Some s => if String.eqb s "" then d else s
  | None => d
  end.

(** Line 19. *)
Definition mongoUri (cfg : Config) : JsVal := env_get cfg "MONGODB_URI".

(** How the outside answers: whether the store accepts a document, what the
    relay answers to a message ([None]: the send rejects), and the clock
    read by [new Date().toISOString()]. *)
Record Services : Type := mkServices
  { create_resolves : Submission.t -> bool;
    sendMail_result : Transport.t -> Mail.t -> option MailInfo;
    toISOString_now : string }.

Inductive Call : Type :=
| CreateCall (doc : Submission.t)
| SendMailCall (tr : Transport.t) (m : Mail.t).

Inductive LogEntry : Type :=
| Warn (s : string)
| EmailSent (mid : string) (acc rej : list string).

Record World : Type := mkWorld
  { store : list Submission.t;     (* documents in the collection *)
    outbox : list Mail.t;          (* messages the relay accepted *)
    calls : list Call;             (* calls made to store and relay, oldest first *)
    console : list LogEntry }.

(** ** Computations that change the world and may throw *)

Inductive Exn : Type :=
| TypeError
| CreateRejected
| SendMailRejected.

Inductive Result (A : Type) : Type :=
| Ok (a : A)
| Threw (e : Exn).

Arguments Ok {A} a.

Arguments Threw {A} e.

Definition M (A : Type) : Type := World -> Result A * World.

Definition ret {A} (a : A) : M A := fun w => (Ok a, w).

Definition throw {A} (e : Exn) : M A := fun w => (Threw e, w).

Definition bind {A B} (c : M A) (k : A -> M B) : M B :=
  fun w => match c w with
           | (Ok a, w') => k a w'
           | (Threw e, w') => (Threw e, w')
           end.

(** An evaluation that touches nothing and either gives a value or throws
    a TypeError. *)
Definition or_type_error {A} (o : option A) : M A :=
  match o with
  | Some a => ret a
  | None => throw TypeError
  end.

Notation "'await' x ':=' c 'in' k" := (bind c (fun x => k))
  (at level 10, x name, c at level 100, k at level 200).

Notation "'exec' c 'in' k" := (bind c (fun _ => k))
  (at level 10, c at level 100, k at level 200).

Definition Submission_create (svc : Services) (doc : Submission.t) : M unit :=
  fun w =>
    let called := calls w ++ [CreateCall doc] in
    if create_resolves svc doc
    then (Ok tt, mkWorld (store w ++ [doc]) (outbox w) called (console w))
    else (Threw CreateRejected, mkWorld (store w) (outbox w) called (console w)).

Definition sendMail (svc : Services) (tr : Transport.t) (m : Mail.t) : M MailInfo :=
  fun w =>
    let called := calls w ++ [SendMailCall tr m] in
    match sendMail_result svc tr m with
    | Some info => (Ok info, mkWorld (store w) (outbox w ++ [m]) called (console w))
    | None => (Threw SendMailRejected, mkWorld (store w) (outbox w) called (console w))
    end.

Definition console_out (e : LogEntry) : M unit :=
  fun w => (Ok tt, mkWorld (store w) (outbox w) (calls w) (console w ++ [e])).

(** ** The upload middleware (server.js, lines 56-67 and 88) *)

(** What the source fixes: [upload.array("attachments", 5)] and
    [limits: { fileSize: 10 * 1024 * 1024 }]. *)
Definition upload_field : string := "attachments".

Definition maxCount : nat := 5.

Definition fileSize_limit : N := 10 * 1024 * 1024.

(** One file part of the multipart request, with what the outside decides
    while it is stored: the clock read by the [filename] callback and
    whether the write to disk goes through. *)
Record Part : Type := mkPart
  { part_fieldname : string;
    part_originalname : string;
    part_mimetype : string;
    part_size : N;
    part_now : N;
    part_written : bool }.

Inductive UploadError : Type :=
| LIMIT_UNEXPECTED_FILE
| LIMIT_FILE_SIZE
| StorageFailure.

(** The disk storage engine: destination [uploadsDir], name from the
    [filename] callback. *)
Definition stored (cfg : Config) (p : Part) : File.t :=
  let name := filename_cb (part_now p) (part_originalname p) in
  File.mk (part_fieldname p) (part_originalname p) name
          (uploadsDir cfg +:+ "/" +:+ name) (part_mimetype p) (part_size p).

(** Modelled from the spec: the upload middleware itself, which the source
    configures (field name, count, size cap, storage engine) but does not
    define. The files of the request are taken in order; a part beyond the
    allowed count or under another field name, a part larger than the size
    cap, or a failed write fails the whole request; otherwise every part is
    stored and described. *)
Fixpoint upload_array (cfg : Config) (room : nat) (parts : list Part) {struct parts}
  : UploadError + list File.t :=
  match parts with
  | [] => inr []
  | p :: rest =>
      if negb (String.eqb (part_fieldname p) upload_field) then inl LIMIT_UNEXPECTED_FILE
      else match room with
           | O => inl LIMIT_UNEXPECTED_FILE
           | S room' =>
               if (fileSize_limit <? part_size p)%N then inl LIMIT_FILE_SIZE
               else if negb (part_written p) then inl StorageFailure
               else match upload_array cfg room' rest with
                    | inl e => inl e
                    | inr files => inr (stored cfg p :: files)
                    end
           end
  end.

(** What reaches the route. The middleware acts on multipart requests only:
    it stores the file parts and leaves the text fields in [req.body] as a
    map; on any other request it sets neither [req.body] nor [req.files].
    [delivered] is [req.body] as the middleware leaves it. *)
Inductive Incoming : Type :=
| NotMultipart
| Multipart (parts : list Part) (delivered : gmap string JsVal).

(** The keys with a bracket suffix that the handler looks up. The
    middleware files a field sent as [name[]] under [name]: no body it
    delivers holds one of these keys. *)
Definition bracketed_keys : list string :=
  ["platform_required[]"; "mvp_purpose[]"; "discussion_mode[]"].

Definition deliverable (form : gmap string JsVal) : Prop :=
  forall k, k ∈ bracketed_keys -> form !! k = None.

(** ** The handler (server.js, lines 88-211) *)

Record Request : Type := mkRequest
  { body : option (gmap string JsVal);
    files : option (list File.t) }.

(** What the client gets: a reply of the handler, or, when the middleware
    passed an error on and the handler never ran, the framework's own error
    page: status 500 (an upload error carries no status of its own) and a
    body that is the framework's, with the error's text in it outside
    production. *)
Inductive Outcome : Type :=
| Sent (status : N) (text : string)
| ErrorPage (e : UploadError).

Definition status_of (out : Outcome) : N :=
  match out with
  | Sent status _ => status
  | ErrorPage _ => 500
  end.

(** The body when it is the handler's; the framework's page is not a text
    of this program. *)
Definition handler_text (out : Outcome) : option string :=
  match out with
  | Sent _ text => Some text
  | ErrorPage _ => None
  end.

(** Lines 168-187. The template literals are evaluated in the order of the
    array; the first conversion that fails throws ([None]). *)
Definition emailBody (full_name email phone company build_type project_type
    industry timeline startup_stage budget message mvp_validation
    referral_source : JsVal)
    (platform_required mvp_purpose discussion_mode : list JsVal) : option string :=
  s_full_name ← to_string full_name;
  s_email ← to_string email;
  s_phone ← to_string phone;
  s_company ← to_string (js_or company (Str "-"));
  s_build_type ← to_string (js_or build_type (Str "-"));
  s_project_type ← to_string (js_or project_type (Str "-"));
  s_industry ← to_string (js_or industry (Str "-"));
  s_platform_required ← join_values ", " platform_required;
  s_timeline ← to_string (js_or timeline (Str "-"));
  s_startup_stage ← to_string (js_or startup_stage (Str "-"));
  s_budget ← to_string (js_or budget (Str "-"));
  s_mvp_validation ← to_string (js_or mvp_validation (Str "-"));
  s_mvp_purpose ← join_values ", " mvp_purpose;
  s_discussion_mode ← join_values ", " discussion_mode;
  s_referral_source ← to_string (js_or referral_source (Str "-"));
  s_message ← to_string (js_or message (Str "-"));
  Some (join LF
    [ "Full Name: " +:+ s_full_name;
      "Email: " +:+ s_email;
      "Phone: " +:+ s_phone;
      "Company: " +:+ s_company;
      "Build Type: " +:+ s_build_type;
      "Project Type: " +:+ s_project_type;
      "Industry: " +:+ s_industry;
      "Platform Required: " +:+ str_or s_platform_required "-";
      "Timeline: " +:+ s_timeline;
      "Startup Stage: " +:+ s_startup_stage;
      "Budget: " +:+ s_budget;
      "MVP Validation: " +:+ s_mvp_validation;
      "MVP Purpose: " +:+ str_or s_mvp_purpose "-";
      "Discussion Mode: " +:+ str_or s_discussion_mode "-";
      "Referral Source: " +:+ s_referral_source;
      "";
      "Message:";
      s_message ]).

(** [process.env.SMTP_SECURE === "true"] *)
Definition is_true_string (v : JsVal) : bool :=
  match v with
  | Str s => String.eqb s "true"
  | _ => false
  end.

Definition handler_body (cfg : Config) (svc : Services) (req : Request) : M Outcome :=
  (* destructuring [req.body]: a TypeError when it is undefined *)
  await form := or_type_error (body req) in
  let full_name := get form "full_name" in
  let email := get form "email" in
  let phone := get form "phone" in
  let company := get form "company" in
  let build_type := get form "build_type" in
  let project_type := get form "project_type" in
  let industry := get form "industry" in
  let timeline := get form "timeline" in
  let startup_stage := get form "startup_stage" in
  let budget := get form "budget" in
  let message := get form "message" in
  let mvp_validation := get form "mvp_validation" in
  let referral_source := get form "referral_source" in
  let platform_required := multi_field form "platform_required" in
  let mvp_purpose := multi_field form "mvp_purpose" in
  let discussion_mode := multi_field form "discussion_mode" in
  if negb (truthy full_name) || negb (truthy email) || negb (truthy phone)
  then ret (Sent 400 "Missing required fields")
  else
    let attachments :=
      map (fun file => Attachment.mk (File.originalname file) (File.filename file)
                         (File.path file) (File.mimetype file) (File.size file))
          (default [] (files req)) in
    let createdAt := toISOString_now svc in
    exec (if truthy (mongoUri cfg)
          then Submission_create svc
                 (Submission.mk createdAt full_name email phone
                    (js_or company (Str ""))
                    (js_or build_type (Str ""))
                    (js_or project_type (Str ""))
                    (js_or industry (Str ""))
                    platform_required
                    (js_or timeline (Str ""))
                    (js_or startup_stage (Str ""))
                    (js_or budget (Str ""))
                    (js_or message (Str ""))
                    (js_or mvp_validation (Str ""))
                    mvp_purpose
                    discussion_mode
                    (js_or referral_source (Str ""))
                    attachments)
          else ret tt) in
    let smtpHost := env_get cfg "SMTP_HOST" in
    let smtpUser := env_get cfg "SMTP_USER" in
    let smtpPass := env_get cfg "SMTP_PASS" in
    let mailTo := env_get cfg "TO_EMAIL" in
    let mailFrom := env_get cfg "FROM_EMAIL" in
    if negb (truthy smtpHost) || negb (truthy smtpUser) || negb (truthy smtpPass)
       || negb (truthy mailTo) || negb (truthy mailFrom)
    then
      exec console_out (Warn "Email not sent: SMTP settings are missing.") in
      ret (Sent 200 "OK")
    else
      let transporter :=
        Transport.mk smtpHost
          (parseInt (env_or cfg "SMTP_PORT" "587"))
          (is_true_string (env_get cfg "SMTP_SECURE"))
          smtpUser smtpPass in
      await emailBody :=
        or_type_error
          (emailBody full_name email phone company build_type project_type industry
             timeline startup_stage budget message mvp_validation referral_source
             platform_required mvp_purpose discussion_mode) in
      await subject :=
        or_type_error (String.append "New Inquiry - " <$> to_string full_name) in
      await mailInfo :=
        sendMail svc transporter
          (Mail.mk mailFrom mailTo email subject emailBody
             (map (fun file => MailAttachment.mk (Attachment.originalname file)
                                 (Attachment.path file))
                  attachments)) in
      exec console_out (EmailSent (messageId mailInfo) (accepted mailInfo)
                                  (rejected mailInfo)) in
      ret (Sent 200 "OK").

(** The [async (req, res) => { try { ... } catch (error) { ... } }]: the
    [catch] answers whatever was thrown, and what the body did to the world
    before it threw stays done. *)
Definition handler (cfg : Config) (svc : Services) (req : Request) (w : World)
  : Outcome * World :=
  match handler_body cfg svc req w with
  | (Ok out, w') => (out, w')
  | (Threw error, w') => (Sent 500 "Server error", w')
  end.

(** The route: the middleware first, the handler after it. No error
    handler is registered, so an error of the middleware is answered by
    the framework. *)
Definition endpoint (cfg : Config) (svc : Services) (incoming : Incoming)
    (w : World) : Outcome * World :=
  match incoming with
  | NotMultipart => handler cfg svc (mkRequest None None) w
  | Multipart parts delivered =>
      match upload_array cfg maxCount parts with
      | inl e => (ErrorPage e, w)
      | inr stored_files =>
          handler cfg svc (mkRequest (Some delivered) (Some stored_files)) w
      end
  end.

(** ** What the handler builds, named *)

(** Line 110, read positively. *)
Definition required_present (form : gmap string JsVal) : bool :=
  truthy (get form "full_name") && truthy (get form "email")
  && truthy (get form "phone").

(** Line 153, read positively. *)
Definition smtp_configured (cfg : Config) : bool :=
  truthy (env_get cfg "SMTP_HOST") && truthy (env_get cfg "SMTP_USER")
  && truthy (env_get cfg "SMTP_PASS") && truthy (env_get cfg "TO_EMAIL")
  && truthy (env_get cfg "FROM_EMAIL").

Definition attachments_of (fs : option (list File.t)) : list Attachment.t :=
  map (fun file => Attachment.mk (File.originalname file) (File.filename file)
                     (File.path file) (File.mimetype file) (File.size file))
      (default [] fs).

Definition document_of (svc : Services) (form : gmap string JsVal)
    (fs : option (list File.t)) : Submission.t :=
  Submission.mk (toISOString_now svc)
    (get form "full_name") (get form "email") (get form "phone")
    (js_or (get form "company") (Str ""))
    (js_or (get form "build_type") (Str ""))
    (js_or (get form "project_type") (Str ""))
    (js_or (get form "industry") (Str ""))
    (multi_field form "platform_required")
    (js_or (get form "timeline") (Str ""))
    (js_or (get form "startup_stage") (Str ""))
    (js_or (get form "budget") (Str ""))
    (js_or (get form "message") (Str ""))
    (js_or (get form "mvp_validation") (Str ""))
    (multi_field form "mvp_purpose")
    (multi_field form "discussion_mode")
    (js_or (get form "referral_source") (Str ""))
    (attachments_of fs).

Definition transport_of (cfg : Config) : Transport.t :=
  Transport.mk (env_get cfg "SMTP_HOST")
    (parseInt (env_or cfg "SMTP_PORT" "587"))
    (is_true_string (env_get cfg "SMTP_SECURE"))
    (env_get cfg "SMTP_USER") (env_get cfg "SMTP_PASS").

(** The text of the mail; [None] when composing it throws. *)
Definition text_of (form : gmap string JsVal) : option string :=
  emailBody (get form "full_name") (get form "email") (get form "phone")
    (get form "company") (get form "build_type") (get form "project_type")
    (get form "industry") (get form "timeline") (get form "startup_stage")
    (get form "budget") (get form "message") (get form "mvp_validation")
    (get form "referral_source")
    (multi_field form "platform_required") (multi_field form "mvp_purpose")
    (multi_field form "discussion_mode").

(** The message handed to the relay; [None] when composing it throws. *)
Definition mail_of (cfg : Config) (form : gmap string JsVal)
    (fs : option (list File.t)) : option Mail.t :=
  text ← text_of form;
  subject ← String.append "New Inquiry - " <$> to_string (get form "full_name");
  Some (Mail.mk (env_get cfg "FROM_EMAIL") (env_get cfg "TO_EMAIL")
          (get form "email") subject text
          (map (fun file => MailAttachment.mk (Attachment.originalname file)
                              (Attachment.path file))
               (attachments_of fs))).

(** The world after a call to the store, and after a call to the relay. *)
Definition inserted (w : World) (doc : Submission.t) : World :=
  mkWorld (store w ++ [doc]) (outbox w) (calls w ++ [CreateCall doc]) (console w).

Definition insert_refused (w : World) (doc : Submission.t) : World :=
  mkWorld (store w) (outbox w) (calls w ++ [CreateCall doc]) (console w).

Definition mailed (w : World) (tr : Transport.t) (m : Mail.t) (info : MailInfo) : World :=
  mkWorld (store w) (outbox w ++ [m]) (calls w ++ [SendMailCall tr m])
          (console w ++ [EmailSent (messageId info) (accepted info) (rejected info)]).

Definition mail_refused (w : World) (tr : Transport.t) (m : Mail.t) : World :=
  mkWorld (store w) (outbox w) (calls w ++ [SendMailCall tr m]) (console w).

Definition warned (w : World) : World :=
  mkWorld (store w) (outbox w) (calls w)
          (console w ++ [Warn "Email not sent: SMTP settings are missing."]).

(** The mail step on a world, with the [catch] applied: lines 147-210. *)
Definition notify_outcome (cfg : Config) (svc : Services)
    (form : gmap string JsVal) (fs : option (list File.t)) (w : World)
  : Outcome * World :=
  if smtp_configured cfg
  then match mail_of cfg form fs with
       | Some m =>
           match sendMail_result svc (transport_of cfg) m with
           | Some info => (Sent 200 "OK", mailed w (transport_of cfg) m info)
           | None => (Sent 500 "Server error", mail_refused w (transport_of cfg) m)
           end
       | None => (Sent 500 "Server error", w)
       end
  else (Sent 200 "OK", warned w).

(** ** Blank values, and what the outside may answer *)

Definition blank (v : JsVal) : Prop := v = Undefined \/ v = Str "".

Definition is_blank (v : JsVal) : bool :=
  match v with
  | Undefined => true
  | Str s => String.eqb s ""
  | _ => false
  end.

Definition nonempty_string (v : JsVal) : Prop := exists s, v = Str s /\ s <> "".

(** The store is not configured, or it takes the document. *)
Definition persistence_ok (cfg : Config) (svc : Services)
    (form : gmap string JsVal) (fs : option (list File.t)) : Prop :=
  blank (mongoUri cfg) \/ create_resolves svc (document_of svc form fs) = true.

(** The store is configured and refuses the document. *)
Definition persistence_fails (cfg : Config) (svc : Services)
    (form : gmap string JsVal) (fs : option (list File.t)) : Prop :=
  ~ blank (mongoUri cfg) /\ create_resolves svc (document_of svc form fs) = false.

(** The relay is not configured, or the message is composed and the relay
    takes it. *)
Definition mail_ok (cfg : Config) (svc : Services)
    (form : gmap string JsVal) (fs : option (list File.t)) : Prop :=
  smtp_configured cfg = false
  \/ exists m, mail_of cfg form fs = Some m
               /\ is_Some (sendMail_result svc (transport_of cfg) m).

(** The relay is configured, and composing the message throws or the relay
    refuses it. *)
Definition mail_fails (cfg : Config) (svc : Services)
    (form : gmap string JsVal) (fs : option (list File.t)) : Prop :=
  smtp_configured cfg = true
  /\ (mail_of cfg form fs = None
      \/ exists m, mail_of cfg form fs = Some m
                   /\ sendMail_result svc (transport_of cfg) m = None).

(** Whether the mail step goes through once the relay is configured: the
    message composes and the relay takes it. *)
Definition mail_accepted (cfg : Config) (svc : Services)
    (form : gmap string JsVal) (fs : option (list File.t)) : bool :=
  match mail_of cfg form fs with
  | Some m => bool_decide (is_Some (sendMail_result svc (transport_of cfg) m))
  | None => false
  end.

(** ** The multi-value lookup, in the words of its description *)

(** "The bracketed key taking priority when present." *)
Definition present_first (form : gmap string JsVal) (name : string) : JsVal :=
  match form !! (name +:+ "[]") with
  | Some v => v
  | None => get form name
  end.

(** "Absent: the empty sequence; a scalar string: the single-element
    sequence containing it; a sequence: unchanged." *)
Definition as_sequence (v : JsVal) : option (list JsVal) :=
  match v with
  | Undefined => Some []
  | Str s => Some [Str s]
  | Arr l => Some l
  | Obj _ => None
  end.

(** The same, the empty string counted with the absent value. *)
Definition as_sequence_nonblank (v : JsVal) : option (list JsVal) :=
  match v with
  | Undefined => Some []
  | Str s => Some (if String.eqb s "" then [] else [Str s])
  | Arr l => Some l
  | Obj _ => None
  end.

(** A bracketed key, where the body holds one, holds a truthy value. The
    bodies the middleware delivers hold no bracketed key at all. *)
Definition bracketed_usable (form : gmap string JsVal) : Prop :=
  forall k v, k ∈ bracketed_keys -> form !! k = Some v -> truthy v = true.

(** ** Values that are strings or sequences of strings *)

Definition is_str (v : JsVal) : bool :=
  match v with
  | Str _ => true
  | _ => false
  end.

(** Absent, a string, or a sequence of strings. *)
Definition flat (v : JsVal) : bool :=
  match v with
  | Undefined => true
  | Str _ => true
  | Arr l => forallb is_str l
  | Obj _ => false
  end.

(** ** The submission of the data model, and its mail text *)

(** A submission whose scalars are strings and whose multi-value fields
    are sequences of strings. *)
Module Inquiry.
Record t : Type := mk
  { full_name : string;
    email : string;
    phone : string;
    company : string;
    build_type : string;
    project_type : string;
    industry : string;
    platform_required : list string;
    timeline : string;
    startup_stage : string;
    budget : string;
    message : string;
    mvp_validation : string;
    mvp_purpose : list string;
    discussion_mode : list string;
    referral_source : string }.
End Inquiry.

(** A scalar field: the raw string, or the empty string when absent. *)
Definition scalar_of (v : JsVal) : option string :=
  match v with
  | Undefined => Some ""
  | Str s => Some s
  | _ => None
  end.

Fixpoint strings_of (l : list JsVal) : option (list string) :=
  match l with
  | [] => Some []
  | Str s :: rest =>
      match strings_of rest with
      | Some ss => Some (s :: ss)
      | None => None
      end
  | _ => None
  end.

(** A multi-value field: the sequence of the value found bracketed key
    first, when that is a sequence of strings. *)
Definition sequence_of (form : gmap string JsVal) (name : string)
  : option (list string) :=
  l ← as_sequence_nonblank (present_first form name); strings_of l.

(** The submission a form body stands for, when its values have the shapes
    of the data model. *)
Definition inquiry_of (form : gmap string JsVal) : option Inquiry.t :=
  full_name ← scalar_of (get form "full_name");
  email ← scalar_of (get form "email");
  phone ← scalar_of (get form "phone");
  company ← scalar_of (get form "company");
  build_type ← scalar_of (get form "build_type");
  project_type ← scalar_of (get form "project_type");
  industry ← scalar_of (get form "industry");
  platform_required ← sequence_of form "platform_required";
  timeline ← scalar_of (get form "timeline");
  startup_stage ← scalar_of (get form "startup_stage");
  budget ← scalar_of (get form "budget");
  message ← scalar_of (get form "message");
  mvp_validation ← scalar_of (get form "mvp_validation");
  mvp_purpose ← sequence_of form "mvp_purpose";
  discussion_mode ← sequence_of form "discussion_mode";
  referral_source ← scalar_of (get form "referral_source");
  Some (Inquiry.mk full_name email phone company build_type project_type industry
          platform_required timeline startup_stage budget message mvp_validation
          mvp_purpose discussion_mode referral_source).

(** A value, or "-" when it is empty. *)
Definition dash (s : string) : string := if String.eqb s "" then "-" else s.

(** The labelled fields, in the order of the mail; multi-value fields
    joined with ", ". *)
Definition inquiry_lines (q : Inquiry.t) : list (string * string) :=
  [ ("Full Name", dash (Inquiry.full_name q));
    ("Email", dash (Inquiry.email q));
    ("Phone", dash (Inquiry.phone q));
    ("Company", dash (Inquiry.company q));
    ("Build Type", dash (Inquiry.build_type q));
    ("Project Type", dash (Inquiry.project_type q));
    ("Industry", dash (Inquiry.industry q));
    ("Platform Required", dash (join ", " (Inquiry.platform_required q)));
    ("Timeline", dash (Inquiry.timeline q));
    ("Startup Stage", dash (Inquiry.startup_stage q));
    ("Budget", dash (Inquiry.budget q));
    ("MVP Validation", dash (Inquiry.mvp_validation q));
    ("MVP Purpose", dash (join ", " (Inquiry.mvp_purpose q)));
    ("Discussion Mode", dash (join ", " (Inquiry.discussion_mode q)));
    ("Referral Source", dash (Inquiry.referral_source q)) ].

(** "Label: value" and the end of the line. *)
Definition text_line (f : string * string) : string := f.1 +:+ ": " +:+ f.2 +:+ LF.

(** One line per field, a blank line, "Message:" on its line, the message. *)
Definition inquiry_text (q : Inquiry.t) : string :=
  foldr String.append "" (text_line <$> inquiry_lines q)
  +:+ LF +:+ "Message:" +:+ LF +:+ dash (Inquiry.message q).

(** ** Sample inputs *)

Definition empty_world : World := mkWorld [] [] [] [].

(** Jane Doe, two platforms: what the middleware delivers for two fields
    sent as [platform_required[]]. *)
Definition jane_form : gmap string JsVal :=
  list_to_map [ ("full_name", Str "Jane Doe"); ("email", Str "jane@x.com");
                ("phone", Str "555-1234");
                ("platform_required", Arr [Str "web"; Str "mobile"]) ].

Definition nameless_form : gmap string JsVal :=
  list_to_map [ ("email", Str "jane@x.com"); ("phone", Str "555-1234") ].

(** Jane Doe again, with a field sent as [company[a]]: the middleware
    delivers an object under [company]. *)
Definition object_form : gmap string JsVal :=
  <["company" := Obj [("a", Str "b")]]> jane_form.

Definition smtp_env : list (string * string) :=
  [ ("SMTP_HOST", "smtp.example.com"); ("SMTP_USER", "mailer");
    ("SMTP_PASS", "secret"); ("TO_EMAIL", "inbox@example.com");
    ("FROM_EMAIL", "site@example.com") ].

Definition mail_only_cfg : Config := mkConfig (list_to_map smtp_env) "/srv/uploads".

Definition full_cfg : Config :=
  mkConfig (list_to_map (("MONGODB_URI", "mongodb://db/one20minutes") :: smtp_env))
           "/srv/uploads".

Definition store_only_cfg : Config :=
  mkConfig (list_to_map [("MONGODB_URI", "mongodb://db/one20minutes")]) "/srv/uploads".

Definition sample_info : MailInfo := mkMailInfo "<1@example.com>" ["inbox@example.com"] [].

Definition willing : Services :=
  mkServices (fun _ => true) (fun _ _ => Some sample_info) "2024-05-01T10:00:00.000Z".

Definition relay_down : Services :=
  mkServices (fun _ => true) (fun _ _ => None) "2024-05-01T10:00:00.000Z".

Definition store_down : Services :=
  mkServices (fun _ => false) (fun _ _ => Some sample_info) "2024-05-01T10:00:00.000Z".

Definition brief_part : Part :=
  mkPart "attachments" "brief.txt" "text/plain" 1024 1714557600000 true.

Definition six_parts : list Part :=
  [brief_part; brief_part; brief_part; brief_part; brief_part; brief_part].

Definition unwritten_part : Part :=
  mkPart "attachments" "brief.txt" "text/plain" 1024 1714557600000 false.

(** ** Stored file names, character by character *)

(** The characters a stored name keeps, written out. *)
Definition kept_chars : string :=
  "abcdefghijklmnopqrstuvwxyzABCDEFGHIJKLMNOPQRSTUVWXYZ0123456789._-".

Fixpoint occurs (c : ascii) (s : string) : bool :=
  match s with
  | EmptyString => false
  | String d rest => Ascii.eqb c d || occurs c rest
  end.

(** Character by character: kept when it is one of [kept_chars], an
    underscore otherwise. *)
Fixpoint sanitized (s : string) : string :=
  match s with
  | EmptyString => EmptyString
  | String c rest => String (if occurs c kept_chars then c else "_"%char) (sanitized rest)
  end.

Fixpoint all_digits (s : string) : bool :=
  match s with
  | EmptyString => true
  | String c rest => is_digit c && all_digits rest
  end.

Fixpoint skip_digits (s : string) : string :=
  match s with
  | String c rest => if is_digit c then skip_digits rest else s
  | EmptyString => EmptyString
  end.

(** The pattern [^\d+SUFFIX$], for a suffix that starts with a character
    that is no digit: at least one digit, then after the run of digits
    exactly the suffix. *)
Definition digits_then (suffix s : string) : bool :=
  match s with
  | String c rest => is_digit c && String.eqb (skip_digits rest) suffix
  | EmptyString => false
  end.

(** ** Upload limits on a document *)

(** At most 5 attachments, each of at most 10 MiB. *)
Definition within_limits (doc : Submission.t) : Prop :=
  length (Submission.attachments doc) <= 5
  /\ Forall (fun a => (Attachment.size a <= 10 * 1024 * 1024)%N)
            (Submission.attachments doc).

(** ** Allowed origins (server.js, lines 69-78) *)

(** [s.split(sep)] for a one-character separator: the pieces between the
    separators, in order; never the empty list. *)
Fixpoint split_on (sep : ascii) (s : string) : list string :=
  match s with
  | EmptyString => [EmptyString]
  | String c rest =>
      if Ascii.eqb c sep then EmptyString :: split_on sep rest
      else match split_on sep rest with
           | piece :: pieces => String c piece :: pieces
           | [] => [String c EmptyString]
           end
  end.

(** [s.trimEnd()] and [s.trim()]; the white space is that of [is_space]. *)
Fixpoint trim_end (s : string) : string :=
  match s with
  | EmptyString => EmptyString
  | String c rest =>
      match trim_end rest with
      | EmptyString => if is_space c then EmptyString else String c EmptyString
      | kept => String c kept
      end
  end.

Definition trim (s : string) : string := trim_end (skip_space s).

(** [Boolean] on a string, as [filter(Boolean)] applies it. *)
Definition nonempty (s : string) : bool := negb (String.eqb s "").

(** Lines 69-72. *)
Definition corsOrigins (cfg : Config) : list string :=
  List.filter nonempty
    (map trim (split_on "," (env_or cfg "CORS_ORIGIN" ""))).

(** The [origin] option handed to [cors]: [true] (any origin) or the list. *)
Inductive CorsOrigin : Type :=
| AnyOrigin
| OnlyOrigins (origins : list string).

(** Line 76: [corsOrigins.length ? corsOrigins : true]. *)
Definition cors_origin (cfg : Config) : CorsOrigin :=
  match corsOrigins cfg with
  | [] => AnyOrigin
  | origins => OnlyOrigins origins
  end.

(** Every character of [s] passes [ok]. *)
Fixpoint all_chars (ok : ascii -> bool) (s : string) : bool :=
  match s with
  | EmptyString => true
  | String c rest => ok c && all_chars ok rest
  end.

Definition comma_or_space (c : ascii) : bool := Ascii.eqb c "," || is_space c.

Definition not_comma (c : ascii) : bool := negb (Ascii.eqb c ",").

(** ** Start-up (server.js, lines 19-31) *)

(** Lines 20-22: what start-up writes to the console about the store. *)
Definition startup_console (cfg : Config) : list LogEntry :=
  if negb (truthy (mongoUri cfg))
  then [Warn "MONGODB_URI is not set. Submissions will not be saved."]
  else [].

(** Line 25: the two arguments of [mongoose.connect] that come from the
    environment, the connection string and the database name. *)
Definition connect_args (cfg : Config) : string * string :=
  (env_or cfg "MONGODB_URI" "", env_or cfg "MONGODB_DB" "one20minutes").

(** ** The keys the handler reads (lines 90-108) *)

Definition known_keys : list string :=
  [ "full_name"; "email"; "phone"; "company"; "build_type"; "project_type";
    "industry"; "timeline"; "startup_stage"; "budget"; "message";
    "mvp_validation"; "referral_source";
    "platform_required[]"; "platform_required";
    "mvp_purpose[]"; "mvp_purpose";
    "discussion_mode[]"; "discussion_mode" ].

(** The optional scalar fields: the key submitted and the field stored. *)
Definition optional_fields : list (string * (Submission.t -> JsVal)) :=
  [ ("company", Submission.company); ("build_type", Submission.build_type);
    ("project_type", Submission.project_type); ("industry", Submission.industry);
    ("timeline", Submission.timeline); ("startup_stage", Submission.startup_stage);
    ("budget", Submission.budget); ("message", Submission.message);
    ("mvp_validation", Submission.mvp_validation);
    ("referral_source", Submission.referral_source) ].

(** * Part II: properties *)

(** ** Examples *)

Example safeName_ex : safeName "my file!@#.pdf" = "my_file___.pdf".
Proof. reflexivity. Qed.

Example filename_ex : filename_cb 1700000000000 "my file!@#.pdf" = "1700000000000-my_file___.pdf".
Proof. reflexivity. Qed.

Example multi_ex :
  multi_field jane_form "platform_required" = [Str "web"; Str "mobile"]
  /\ multi_field (<["mvp_purpose" := Str "demo"]> jane_form) "mvp_purpose" = [Str "demo"]
  /\ multi_field jane_form "discussion_mode" = [].
Proof. vm_compute. repeat split. Qed.

Example to_string_ex :
  to_string (Arr [Str "a"; Undefined; Arr [Str "b"; Str "c"]]) = Some "a,,b,c"
  /\ to_string (Arr []) = Some ""
  /\ to_string (Arr [Str "a"; Obj []]) = None.
Proof. repeat split. Qed.

Example parseInt_ex :
  parseInt "587" = Num 587 /\ parseInt " 25x" = Num 25 /\ parseInt "smtp" = NaN
  /\ parseInt "-0" = NegZero /\ parseInt "-12" = Num (-12)
  /\ parseInt "9007199254740993" = Num 9007199254740992
  /\ parseInt "9007199254740995" = Num 9007199254740996.
Proof. repeat split. Qed.

(** The route on a full request: Jane Doe, two platforms, one small file. *)
Example end_to_end :
  let r := endpoint full_cfg willing (Multipart [brief_part] jane_form) empty_world in
  r.1 = Sent 200 "OK"
  /\ (Submission.platform_required <$> store r.2) = [[Str "web"; Str "mobile"]]
  /\ (Mail.subject <$> outbox r.2) = ["New Inquiry - Jane Doe"]
  /\ (Mail.attachments <$> outbox r.2)
     = [[MailAttachment.mk "brief.txt" "/srv/uploads/1714557600000-brief.txt"]]
  /\ console r.2 = [EmailSent "<1@example.com>" ["inbox@example.com"] []].
Proof. vm_compute. repeat split. Qed.

(** ** Blank and truthy *)

Lemma truthy_false_blank v : truthy v = false <-> blank v.
Proof.
  unfold blank. destruct v as [|s|l|fields]; simpl.
  - split; [intros _; now left | reflexivity].
  - rewrite negb_false_iff, String.eqb_eq. split.
    + intros ->. now right.
    + intros [H|H]; [discriminate | now injection H].
  - split; [discriminate | intros [H|H]; discriminate].
  - split; [discriminate | intros [H|H]; discriminate].
Qed.

Lemma truthy_true_not_blank v : truthy v = true <-> ~ blank v.
Proof.
  rewrite <- truthy_false_blank. destruct (truthy v); split; congruence.
Qed.

Lemma truthy_is_blank v : truthy v = negb (is_blank v).
Proof. destruct v; reflexivity. Qed.

Lemma required_present_false form :
  required_present form = false <->
  blank (get form "full_name") \/ blank (get form "email") \/ blank (get form "phone").
Proof.
  unfold required_present. rewrite <- !truthy_false_blank.
  destruct (truthy (get form "full_name")), (truthy (get form "email")),
    (truthy (get form "phone")); simpl; intuition congruence.
Qed.

Lemma nonempty_string_truthy v : nonempty_string v -> truthy v = true.
Proof.
  intros (s & -> & Hs). simpl. apply negb_true_iff, String.eqb_neq, Hs.
Qed.

(** ** The handler, path by path *)

(** No body: the destructuring throws, the [catch] answers. *)
Lemma handler_no_body cfg svc fs w :
  handler cfg svc (mkRequest None fs) w = (Sent 500 "Server error", w).
Proof. reflexivity. Qed.

Lemma handler_missing cfg svc form fs w :
  required_present form = false ->
  handler cfg svc (mkRequest (Some form) fs) w
  = (Sent 400 "Missing required fields", w).
Proof.
  unfold required_present, handler, handler_body, bind, or_type_error, ret.
  cbn [body files].
  destruct (truthy (get form "full_name")), (truthy (get form "email")),
    (truthy (get form "phone")); try discriminate; reflexivity.
Qed.

Lemma handler_run cfg svc form fs w :
  required_present form = true ->
  handler cfg svc (mkRequest (Some form) fs) w =
  if truthy (mongoUri cfg)
  then if create_resolves svc (document_of svc form fs)
       then notify_outcome cfg svc form fs (inserted w (document_of svc form fs))
       else (Sent 500 "Server error", insert_refused w (document_of svc form fs))
  else notify_outcome cfg svc form fs w.
Proof.
  unfold required_present. intros Hreq.
  apply andb_true_iff in Hreq as [Hreq H3]. apply andb_true_iff in Hreq as [H1 H2].
  assert (Hnotify : forall w1,
    match
      (if negb (truthy (env_get cfg "SMTP_HOST")) || negb (truthy (env_get cfg "SMTP_USER"))
          || negb (truthy (env_get cfg "SMTP_PASS")) || negb (truthy (env_get cfg "TO_EMAIL"))
          || negb (truthy (env_get cfg "FROM_EMAIL"))
       then exec console_out (Warn "Email not sent: SMTP settings are missing.") in
            ret (Sent 200 "OK")
       else
         await emailBody := or_type_error (text_of form) in
         await subject :=
           or_type_error (String.append "New Inquiry - "
                            <$> to_string (get form "full_name")) in
         await mailInfo :=
           sendMail svc (transport_of cfg)
             (Mail.mk (env_get cfg "FROM_EMAIL") (env_get cfg "TO_EMAIL")
                (get form "email") subject emailBody
                (map (fun file => MailAttachment.mk (Attachment.originalname file)
                                    (Attachment.path file))
                     (attachments_of fs))) in
         exec console_out (EmailSent (messageId mailInfo) (accepted mailInfo)
                                     (rejected mailInfo)) in
         ret (Sent 200 "OK")) w1
    with
    | (Ok out, w') => (out, w')
    | (Threw _, w') => (Sent 500 "Server error", w')
    end = notify_outcome cfg svc form fs w1).
  { intros w1. unfold notify_outcome, smtp_configured, mail_of.
    destruct (truthy (env_get cfg "SMTP_HOST")), (truthy (env_get cfg "SMTP_USER")),
      (truthy (env_get cfg "SMTP_PASS")), (truthy (env_get cfg "TO_EMAIL")),
      (truthy (env_get cfg "FROM_EMAIL")); try reflexivity.
    cbn [negb orb andb]. unfold bind, or_type_error, ret, throw.
    destruct (text_of form) as [text|]; [|reflexivity]. cbn [mbind option_bind].
    destruct (to_string (get form "full_name")) as [name|]; [|reflexivity].
    cbn [fmap option_fmap option_map mbind option_bind]. unfold sendMail, console_out.
    destruct (sendMail_result svc _ _); reflexivity. }
  unfold handler, handler_body. cbn [body files]. unfold bind at 1.
  cbn [or_type_error ret]. rewrite H1, H2, H3. cbn [negb orb].
  unfold bind at 1. fold (attachments_of fs). fold (document_of svc form fs).
  fold (text_of form). fold (transport_of cfg).
  destruct (truthy (mongoUri cfg)).
  - unfold Submission_create at 1. destruct (create_resolves svc _).
    + apply Hnotify.
    + reflexivity.
  - unfold ret at 1. apply Hnotify.
Qed.

(** Splits the run of the handler on a body into its paths. *)
Ltac handler_paths cfg svc form fs :=
  let Hreq := fresh "Hreq" in
  destruct (required_present form) eqn:Hreq;
  [ rewrite handler_run by exact Hreq; unfold notify_outcome;
    destruct (truthy (mongoUri cfg)) eqn:?,
      (create_resolves svc (document_of svc form fs)) eqn:?,
      (smtp_configured cfg) eqn:?,
      (mail_of cfg form fs) as [?m|] eqn:?;
    try match goal with
        | |- context [sendMail_result svc ?tr ?m] =>
            destruct (sendMail_result svc tr m) eqn:?
        end
  | rewrite handler_missing by exact Hreq ].

Lemma notify_outcome_store cfg svc form fs w :
  store (notify_outcome cfg svc form fs w).2 = store w.
Proof.
  unfold notify_outcome. destruct (smtp_configured cfg); [|reflexivity].
  destruct (mail_of cfg form fs); [|reflexivity].
  destruct (sendMail_result svc _ _); reflexivity.
Qed.

Lemma handler_store cfg svc req w :
  store (handler cfg svc req w).2 = store w
  \/ exists form, body req = Some form
       /\ required_present form = true
       /\ store (handler cfg svc req w).2
          = store w ++ [document_of svc form (files req)].
Proof.
  destruct req as [[form|] fs]; [|now left]. cbn [body files].
  destruct (required_present form) eqn:Hreq.
  - rewrite handler_run by exact Hreq.
    destruct (truthy (mongoUri cfg)), (create_resolves svc (document_of svc form fs));
      rewrite ?notify_outcome_store; eauto.
  - rewrite handler_missing by exact Hreq. now left.
Qed.

(** The route stops in the middleware, the world untouched, or runs the
    handler. *)
Lemma endpoint_cases cfg svc incoming w :
  (exists e, endpoint cfg svc incoming w = (ErrorPage e, w))
  \/ (exists req, endpoint cfg svc incoming w = handler cfg svc req w).
Proof.
  destruct incoming as [|parts form]; cbn [endpoint]; [eauto|].
  destruct (upload_array cfg maxCount parts); eauto.
Qed.

Lemma persist_then_notify cfg svc form fs w :
  required_present form = true ->
  persistence_ok cfg svc form fs ->
  exists w1, handler cfg svc (mkRequest (Some form) fs) w
             = notify_outcome cfg svc form fs w1
             /\ outbox w1 = outbox w
             /\ (exists cs, calls w1 = calls w ++ cs
                            /\ forall tr m, SendMailCall tr m ∉ cs).
Proof.
  intros Hreq Hp. rewrite handler_run by exact Hreq.
  destruct (truthy (mongoUri cfg)) eqn:Hm.
  - destruct Hp as [Hp|Hp]; [apply truthy_false_blank in Hp; congruence|].
    rewrite Hp. exists (inserted w (document_of svc form fs)).
    repeat split. exists [CreateCall (document_of svc form fs)].
    split; [reflexivity|]. intros tr m Hin.
    apply list_elem_of_singleton in Hin. discriminate Hin.
  - exists w. repeat split. exists []. split; [now rewrite app_nil_r|].
    intros tr m Hin. inversion Hin.
Qed.

Lemma handler_ok cfg svc form fs w :
  required_present form = true ->
  persistence_ok cfg svc form fs -> mail_ok cfg svc form fs ->
  (handler cfg svc (mkRequest (Some form) fs) w).1 = Sent 200 "OK".
Proof.
  intros Hreq Hp Hm.
  destruct (persist_then_notify cfg svc form fs w Hreq Hp) as (w1 & -> & _).
  unfold notify_outcome. destruct Hm as [-> | (m & -> & [info ->])].
  - reflexivity.
  - destruct (smtp_configured cfg); reflexivity.
Qed.

(** ** Multi-value fields *)

Lemma multi_field_reading form name l :
  (forall v, form !! (name +:+ "[]") = Some v -> truthy v = true) ->
  as_sequence_nonblank (present_first form name) = Some l ->
  multi_field form name = l.
Proof.
  intros Hb. unfold multi_field, present_first, get, js_or, normalizeArray.
  destruct (form !! (name +:+ "[]")) as [v|].
  - rewrite (Hb v eq_refl). cbn [negb].
    destruct v as [|s|l'|fields]; cbn; try congruence.
    destruct (String.eqb s ""); cbn; congruence.
  - cbn [truthy]. destruct (form !! name) as [[|s|l'|fields]|]; cbn; try congruence.
    destruct (String.eqb s ""); cbn; congruence.
Qed.

(** C1 (amended). For each of the three multi-value fields the normaliser
    looks up the bracketed key and the plain key, the bracketed key first
    when the body holds it, and maps the value found to a sequence: an
    absent value or the empty string to the empty sequence, a non-empty
    string to the sequence of that one string, a sequence to itself. This
    holds of every body in which a bracketed key, if there, holds a truthy
    value; the bodies the middleware delivers hold no bracketed key. *)
Theorem multi_value_fields_normalized (svc : Services)
    (form : gmap string JsVal) (fs : option (list File.t)) :
  bracketed_usable form ->
  (forall l, as_sequence_nonblank (present_first form "platform_required") = Some l ->
             Submission.platform_required (document_of svc form fs) = l)
  /\ (forall l, as_sequence_nonblank (present_first form "mvp_purpose") = Some l ->
                Submission.mvp_purpose (document_of svc form fs) = l)
  /\ (forall l, as_sequence_nonblank (present_first form "discussion_mode") = Some l ->
                Submission.discussion_mode (document_of svc form fs) = l).
Proof.
  intros Hb. unfold document_of.
  cbn [Submission.platform_required Submission.mvp_purpose Submission.discussion_mode].
  repeat split; intros l Hl; apply multi_field_reading; try exact Hl;
    intros v Hv; (eapply Hb; [|exact Hv]); unfold bracketed_keys;
    repeat constructor.
Qed.

Lemma deliverable_usable form : deliverable form -> bracketed_usable form.
Proof. intros Hd k v Hk Hv. rewrite (Hd k Hk) in Hv. discriminate Hv. Qed.

Lemma multi_value_fields_normalized_witness :
  bracketed_usable jane_form
  /\ Submission.platform_required (document_of willing jane_form None)
     = [Str "web"; Str "mobile"]
  /\ Submission.mvp_purpose (document_of willing jane_form None) = [].
Proof.
  assert (H : bracketed_usable jane_form).
  { apply deliverable_usable. intros k Hk. unfold bracketed_keys in Hk.
    repeat (apply elem_of_cons in Hk as [-> | Hk]; [reflexivity|]).
    inversion Hk. }
  split; [exact H|].
  destruct (multi_value_fields_normalized willing jane_form None H) as (H1 & H2 & _).
  split; [apply H1 | apply H2]; reflexivity.
Defined.

(** Against C1 as written: the middleware delivers an empty string for a
    field sent empty; the sequence is then empty, not the one empty string. *)
Lemma multi_field_empty_string :
  deliverable (<["platform_required" := Str ""]> ∅)
  /\ as_sequence (present_first (<["platform_required" := Str ""]> ∅) "platform_required")
     = Some [Str ""]
  /\ multi_field (<["platform_required" := Str ""]> ∅) "platform_required" = []
  /\ Submission.platform_required
       (document_of willing (<["platform_required" := Str ""]> ∅) None) = [].
Proof.
  split.
  - intros k Hk. unfold bracketed_keys in Hk.
    repeat (apply elem_of_cons in Hk as [-> | Hk]; [reflexivity|]).
    inversion Hk.
  - vm_compute. repeat split.
Qed.

(** ** Required fields *)

(** C2 (amended). On a multipart request that the middleware passes on, a
    blank [full_name], [email] or [phone] is answered 400 "Missing required
    fields" and leaves the world as it was: no call to the store, none to
    the relay. And whatever reaches the route, a document it adds to the
    store has none of the three blank. *)
Theorem missing_required_rejected (cfg : Config) (svc : Services) (w : World) :
  (forall parts stored_files form,
     upload_array cfg maxCount parts = inr stored_files ->
     blank (get form "full_name") \/ blank (get form "email")
     \/ blank (get form "phone") ->
     endpoint cfg svc (Multipart parts form) w
     = (Sent 400 "Missing required fields", w))
  /\ (forall incoming doc,
        doc ∈ store (endpoint cfg svc incoming w).2 ->
        doc ∈ store w
        \/ (~ blank (Submission.full_name doc) /\ ~ blank (Submission.email doc)
            /\ ~ blank (Submission.phone doc))).
Proof.
  split.
  - intros parts stored_files form Hup Hblank. cbn [endpoint]. rewrite Hup.
    apply handler_missing, required_present_false, Hblank.
  - intros incoming doc Hin.
    destruct (endpoint_cases cfg svc incoming w) as [[e He] | [req He]];
      rewrite He in Hin; [now left|].
    destruct (handler_store cfg svc req w) as [Hs | (form & _ & Hreq & Hs)];
      rewrite Hs in Hin; [now left|].
    apply elem_of_app in Hin as [Hin|Hin]; [now left|].
    apply list_elem_of_singleton in Hin. subst doc. right.
    unfold required_present in Hreq.
    apply andb_true_iff in Hreq as [Hreq H3]. apply andb_true_iff in Hreq as [H1 H2].
    unfold document_of.
    cbn [Submission.full_name Submission.email Submission.phone].
    rewrite <- !truthy_true_not_blank. auto.
Qed.

Lemma missing_required_rejected_witness :
  upload_array full_cfg maxCount [brief_part] = inr [stored full_cfg brief_part]
  /\ blank (get nameless_form "full_name")
  /\ endpoint full_cfg willing (Multipart [brief_part] nameless_form) empty_world
     = (Sent 400 "Missing required fields", empty_world).
Proof.
  assert (H : blank (get nameless_form "full_name")) by (left; reflexivity).
  split; [reflexivity|]. split; [exact H|].
  apply (proj1 (missing_required_rejected full_cfg willing empty_world)
           [brief_part] [stored full_cfg brief_part] nameless_form eq_refl).
  left. exact H.
Defined.

(** Against C2 as written: with [full_name] missing, a request with six
    files is answered by the framework's error page, status 500, and a
    request that is not multipart by the handler's 500; neither gets 400. *)
Lemma missing_required_not_400 :
  blank (get nameless_form "full_name")
  /\ endpoint full_cfg willing (Multipart six_parts nameless_form) empty_world
     = (ErrorPage LIMIT_UNEXPECTED_FILE, empty_world)
  /\ status_of (endpoint full_cfg willing (Multipart six_parts nameless_form)
                  empty_world).1 = 500%N
  /\ endpoint full_cfg willing NotMultipart empty_world
     = (Sent 500 "Server error", empty_world).
Proof. split; [left; reflexivity|]. vm_compute. repeat split. Qed.

(** ** Composing the mail *)

Lemma to_string_Arr l : to_string (Arr l) = join_values "," l.
Proof. reflexivity. Qed.

Lemma strings_of_elem_strings l ss : strings_of l = Some ss -> elem_strings l = Some ss.
Proof.
  revert ss. induction l as [|x l IH]; intros ss H.
  - exact H.
  - destruct x as [|s|l'|fields]; try discriminate H. cbn [strings_of] in H.
    destruct (strings_of l) as [ss'|]; [|discriminate H]. injection H as <-.
    cbn [elem_strings elem_string to_string]. now rewrite (IH ss' eq_refl).
Qed.

Lemma forallb_is_str_strings_of l :
  forallb is_str l = true -> exists ss, strings_of l = Some ss.
Proof.
  induction l as [|x l IH]; [eauto|]. cbn [forallb]. rewrite andb_true_iff.
  intros [Hx Hl]. destruct x; try discriminate Hx.
  destruct (IH Hl) as [ss Hss]. cbn [strings_of]. rewrite Hss. eauto.
Qed.

Lemma flat_to_string v : flat v = true -> is_Some (to_string v).
Proof.
  destruct v as [|s|l|fields]; cbn [flat]; try (intros _; eexists; reflexivity);
    [|discriminate].
  intros Hl. rewrite to_string_Arr. unfold join_values.
  destruct (forallb_is_str_strings_of l Hl) as [ss Hss].
  rewrite (strings_of_elem_strings l ss Hss). eexists. reflexivity.
Qed.

Lemma flat_js_or v d : flat v = true -> flat (js_or v (Str d)) = true.
Proof. intros H. unfold js_or. destruct (truthy v); [exact H|reflexivity]. Qed.

Lemma flat_multi_field form name :
  (forall k, flat (get form k) = true) ->
  is_Some (join_values ", " (multi_field form name)).
Proof.
  intros Hflat. unfold multi_field, js_or.
  assert (Hv : flat (if truthy (get form (name +:+ "[]"))
                     then get form (name +:+ "[]") else get form name) = true)
    by (destruct (truthy _); apply Hflat).
  revert Hv. generalize (if truthy (get form (name +:+ "[]"))
                         then get form (name +:+ "[]") else get form name).
  intros v Hv. unfold normalizeArray, join_values.
  destruct v as [|s|l|fields]; cbn [truthy negb flat] in *; try discriminate Hv.
  - eexists. reflexivity.
  - destruct (String.eqb s ""); eexists; reflexivity.
  - destruct (forallb_is_str_strings_of l Hv) as [ss Hss].
    rewrite (strings_of_elem_strings l ss Hss). eexists. reflexivity.
Qed.

Lemma bind_is_Some {A B} (o : option A) (f : A -> option B) :
  is_Some o -> (forall a, is_Some (f a)) -> is_Some (o ≫= f).
Proof. intros [a ->] Hf. apply Hf. Qed.

(** A body of strings and sequences of strings: composing does not throw. *)
Lemma flat_mail_of cfg form fs :
  (forall k, flat (get form k) = true) -> is_Some (mail_of cfg form fs).
Proof.
  intros Hflat. unfold mail_of. apply bind_is_Some.
  - unfold text_of, emailBody.
    repeat (apply bind_is_Some;
            [ first [ apply flat_to_string; first [apply flat_js_or|idtac]; apply Hflat
                    | apply flat_multi_field; exact Hflat ]
            | intros ? ]).
    eexists. reflexivity.
  - intros text. apply bind_is_Some.
    + destruct (flat_to_string _ (Hflat "full_name")) as [s ->]. eexists. reflexivity.
    + intros subject. eexists. reflexivity.
Qed.

(** ** Outcomes of the handler *)

(** C3 (amended). A request whose [full_name], [email] and [phone] are
    non-empty strings and whose fields are all strings or sequences of
    strings, whose files the middleware stored, whose document the store
    takes (or no store is configured) and whose message the relay takes (or
    no relay is configured), is answered 200 "OK". *)
Theorem valid_submission_succeeds (cfg : Config) (svc : Services)
    (parts : list Part) (form : gmap string JsVal) (w : World)
    (stored_files : list File.t) :
  nonempty_string (get form "full_name") ->
  nonempty_string (get form "email") ->
  nonempty_string (get form "phone") ->
  (forall k, flat (get form k) = true) ->
  upload_array cfg maxCount parts = inr stored_files ->
  persistence_ok cfg svc form (Some stored_files) ->
  (smtp_configured cfg = false
   \/ forall m, mail_of cfg form (Some stored_files) = Some m ->
                is_Some (sendMail_result svc (transport_of cfg) m)) ->
  (endpoint cfg svc (Multipart parts form) w).1 = Sent 200 "OK".
Proof.
  intros H1 H2 H3 Hflat Hup Hp Hm. cbn [endpoint]. rewrite Hup.
  apply handler_ok; [|exact Hp|].
  - unfold required_present. now rewrite !nonempty_string_truthy.
  - destruct Hm as [Hm|Hm]; [now left|]. right.
    destruct (flat_mail_of cfg form (Some stored_files) Hflat) as [m Hmail].
    exists m. split; [exact Hmail|]. apply Hm, Hmail.
Qed.

Lemma jane_form_flat k : flat (get jane_form k) = true.
Proof.
  unfold get, jane_form. cbn [list_to_map foldr uncurry].
  repeat (rewrite lookup_insert; case_decide; [reflexivity|]).
  rewrite lookup_empty. reflexivity.
Qed.

Lemma valid_submission_succeeds_witness :
  (endpoint full_cfg willing (Multipart [brief_part] jane_form) empty_world).1
  = Sent 200 "OK".
Proof.
  apply (valid_submission_succeeds full_cfg willing [brief_part] jane_form
           empty_world [stored full_cfg brief_part]).
  - exists "Jane Doe". split; [reflexivity|discriminate].
  - exists "jane@x.com". split; [reflexivity|discriminate].
  - exists "555-1234". split; [reflexivity|discriminate].
  - apply jane_form_flat.
  - reflexivity.
  - right. reflexivity.
  - right. intros m _. exists sample_info. reflexivity.
Defined.

(** Against C3 as written: the three fields are non-empty strings, the
    file is stored, no store is configured, the relay takes whatever comes,
    and the reply is 500: a field sent as [company[a]] arrives as an
    object, and composing the mail throws before anything is sent. *)
Lemma object_field_not_answered_200 :
  nonempty_string (get object_form "full_name")
  /\ nonempty_string (get object_form "email")
  /\ nonempty_string (get object_form "phone")
  /\ get object_form "company" = Obj [("a", Str "b")]
  /\ upload_array mail_only_cfg maxCount [brief_part]
     = inr [stored mail_only_cfg brief_part]
  /\ persistence_ok mail_only_cfg willing object_form
       (Some [stored mail_only_cfg brief_part])
  /\ (forall tr m, is_Some (sendMail_result willing tr m))
  /\ endpoint mail_only_cfg willing (Multipart [brief_part] object_form) empty_world
     = (Sent 500 "Server error", empty_world).
Proof.
  split; [|split; [|split; [|split; [|split; [|split; [|split]]]]]].
  - exists "Jane Doe". split; [reflexivity|discriminate].
  - exists "jane@x.com". split; [reflexivity|discriminate].
  - exists "555-1234". split; [reflexivity|discriminate].
  - reflexivity.
  - reflexivity.
  - left. left. reflexivity.
  - intros tr m. exists sample_info. reflexivity.
  - vm_compute. reflexivity.
Qed.

(** C4. With no connection string configured (unset or empty) the handler
    makes no call to the store and leaves its content alone, whatever the
    request; and a request with the required fields, whose mail step does
    not fail, is still answered 200 "OK". *)
Theorem unconfigured_store_skipped (cfg : Config) (svc : Services) (req : Request)
    (w : World) :
  blank (mongoUri cfg) ->
  store (handler cfg svc req w).2 = store w
  /\ (forall doc, CreateCall doc ∈ calls (handler cfg svc req w).2 ->
                  CreateCall doc ∈ calls w)
  /\ (forall form, body req = Some form ->
        required_present form = true -> mail_ok cfg svc form (files req) ->
        (handler cfg svc req w).1 = Sent 200 "OK").
Proof.
  intros Hm. pose proof Hm as Hm'. apply truthy_false_blank in Hm'.
  destruct req as [[form|] fs]; cbn [body files].
  - split; [|split].
    + handler_paths cfg svc form fs; try congruence; reflexivity.
    + intros doc. handler_paths cfg svc form fs; try congruence; cbn; trivial;
        intros Hin; apply elem_of_app in Hin as [Hin|Hin]; trivial;
        apply list_elem_of_singleton in Hin; discriminate.
    + intros form' Hf Hreq Hmail. injection Hf as <-.
      apply handler_ok; [exact Hreq | now left | exact Hmail].
  - rewrite handler_no_body. repeat split; trivial. intros form Hf. discriminate Hf.
Qed.

Lemma unconfigured_store_skipped_witness :
  blank (mongoUri mail_only_cfg)
  /\ store (handler mail_only_cfg willing (mkRequest (Some jane_form) None)
              empty_world).2 = []
  /\ (handler mail_only_cfg willing (mkRequest (Some jane_form) None) empty_world).1
     = Sent 200 "OK".
Proof.
  assert (H : blank (mongoUri mail_only_cfg)) by (left; reflexivity).
  destruct (unconfigured_store_skipped mail_only_cfg willing
              (mkRequest (Some jane_form) None) empty_world H) as (Hs & _ & Hok).
  split; [exact H|]. split; [exact Hs|].
  apply (Hok jane_form eq_refl); [reflexivity|]. right.
  eexists. split; [reflexivity|]. exists sample_info. reflexivity.
Defined.

(** ** The mail step *)


(** The mail step when the relay is configured and the message composed:
    the send is the last call, whatever the relay answers. *)
Lemma notify_outcome_sends cfg svc form fs w m :
  smtp_configured cfg = true -> mail_of cfg form fs = Some m ->
  last (calls (notify_outcome cfg svc form fs w).2)
  = Some (SendMailCall (transport_of cfg) m)
  /\ (is_Some (sendMail_result svc (transport_of cfg) m) ->
      outbox (notify_outcome cfg svc form fs w).2 = outbox w ++ [m]).
Proof.
  intros Hs Hm. unfold notify_outcome. rewrite Hs, Hm.
  destruct (sendMail_result svc (transport_of cfg) m) eqn:E; cbn; split;
    try apply last_snoc; try reflexivity.
  intros [info Hinfo]. discriminate Hinfo.
Qed.




(** ** The text of the mail, line by line *)

Lemma append_assoc (a b c : string) : (a +:+ b) +:+ c = a +:+ (b +:+ c).
Proof.
  induction a as [|x a IH]; [reflexivity|].
  change (String x ((a +:+ b) +:+ c) = String x (a +:+ (b +:+ c))). now f_equal.
Qed.

Lemma scalar_dash v s :
  scalar_of v = Some s -> to_string (js_or v (Str "-")) = Some (dash s).
Proof.
  unfold js_or, dash. destruct v as [|t|l|fields]; try discriminate.
  - intros H. injection H as <-. reflexivity.
  - intros H. injection H as <-. cbn [truthy]. destruct (String.eqb t ""); reflexivity.
Qed.

Lemma scalar_required v s :
  scalar_of v = Some s -> truthy v = true ->
  v = Str s /\ to_string v = Some s /\ dash s = s.
Proof.
  unfold dash. destruct v as [|t|l|fields]; try discriminate.
  intros H Ht. injection H as <-. cbn [truthy] in Ht.
  apply negb_true_iff in Ht. rewrite Ht. auto.
Qed.

Lemma sequence_joined form name ss :
  (forall v, form !! (name +:+ "[]") = Some v -> truthy v = true) ->
  sequence_of form name = Some ss ->
  join_values ", " (multi_field form name) = Some (join ", " ss).
Proof.
  intros Hb. unfold sequence_of.
  destruct (as_sequence_nonblank (present_first form name)) as [l|] eqn:Hl;
    [|discriminate]. cbn [mbind option_bind]. intros Hss.
  rewrite (multi_field_reading form name l Hb Hl). unfold join_values.
  now rewrite (strings_of_elem_strings l ss Hss).
Qed.

(** The text the handler composes is the text of the submission the body
    stands for. *)
Lemma text_of_inquiry form q :
  bracketed_usable form -> inquiry_of form = Some q ->
  required_present form = true ->
  text_of form = Some (inquiry_text q)
  /\ get form "full_name" = Str (Inquiry.full_name q)
  /\ get form "email" = Str (Inquiry.email q).
Proof.
  intros Hb Hq Hreq. unfold required_present in Hreq.
  apply andb_true_iff in Hreq as [Hreq H3]. apply andb_true_iff in Hreq as [H1 H2].
  unfold inquiry_of in Hq.
  repeat match type of Hq with
         | context [scalar_of ?v] =>
             let E := fresh "E" in
             destruct (scalar_of v) eqn:E; cbn [mbind option_bind] in Hq;
             [|discriminate Hq]
         | context [sequence_of form ?n] =>
             let E := fresh "E" in
             destruct (sequence_of form n) eqn:E; cbn [mbind option_bind] in Hq;
             [|discriminate Hq]
         end.
  injection Hq as <-.
  cbn [Inquiry.full_name Inquiry.email].
  destruct (scalar_required _ _ E H1) as (Hfn & Sfn & Dfn).
  destruct (scalar_required _ _ E0 H2) as (Hem & Sem & Dem).
  destruct (scalar_required _ _ E1 H3) as (_ & Sph & Dph).
  split; [|split; assumption].
  unfold text_of, emailBody. rewrite Sfn, Sem, Sph.
  repeat match goal with
         | H : scalar_of ?v = Some _ |- context [to_string (js_or ?v (Str "-"))] =>
             rewrite (scalar_dash _ _ H)
         | H : sequence_of form ?n = Some _ |- context [multi_field form ?n] =>
             rewrite (sequence_joined form n _
                        (fun v Hv => Hb (n +:+ "[]") v
                                        ltac:(unfold bracketed_keys; repeat constructor) Hv)
                        H)
         end.
  cbn [mbind option_bind]. f_equal.
  unfold inquiry_text, inquiry_lines, text_line, LF.
  cbn [Inquiry.full_name Inquiry.email Inquiry.phone Inquiry.company
       Inquiry.build_type Inquiry.project_type Inquiry.industry
       Inquiry.platform_required Inquiry.timeline Inquiry.startup_stage
       Inquiry.budget Inquiry.message Inquiry.mvp_validation Inquiry.mvp_purpose
       Inquiry.discussion_mode Inquiry.referral_source
       fmap list_fmap foldr fst snd join].
  rewrite Dfn, Dem, Dph.
  change (str_or ?x "-") with (dash x).
  generalize (dash s2) (dash s3) (dash s4) (dash s5) (dash (join ", " l))
    (dash s6) (dash s7) (dash s8) (dash s9) (dash s10) (dash (join ", " l0))
    (dash (join ", " l1)) (dash s11).
  intros. rewrite ?append_assoc. reflexivity.
Qed.

(** C6. When a request with the required fields reaches the mail step (the
    persistence step did not fail) and the relay is fully configured, the
    last call the handler makes is a send of one message: subject
    "New Inquiry - " and the full name, from and to the configured
    addresses, reply-to the submitter's email, one attachment per stored
    file under its original name and stored path, and as text one
    "Label: value" line per field in the fixed order, "-" for an empty
    value, multi-value fields joined with ", ", then a blank line,
    "Message:", and the message or "-". A message the relay takes ends up in
    the outbox. The submission is the one the body stands for in the data
    model: scalars that are strings, multi-value fields that are sequences
    of strings, found bracketed key first. *)
Theorem outgoing_mail_format (cfg : Config) (svc : Services)
    (form : gmap string JsVal) (fs : option (list File.t)) (w : World)
    (q : Inquiry.t) :
  bracketed_usable form ->
  inquiry_of form = Some q ->
  required_present form = true ->
  persistence_ok cfg svc form fs ->
  smtp_configured cfg = true ->
  exists m,
    last (calls (handler cfg svc (mkRequest (Some form) fs) w).2)
    = Some (SendMailCall (transport_of cfg) m)
    /\ Mail.subject m = "New Inquiry - " +:+ Inquiry.full_name q
    /\ Mail.from m = env_get cfg "FROM_EMAIL"
    /\ Mail.to m = env_get cfg "TO_EMAIL"
    /\ Mail.replyTo m = Str (Inquiry.email q)
    /\ Mail.attachments m
       = map (fun file => MailAttachment.mk (File.originalname file) (File.path file))
             (default [] fs)
    /\ Mail.text m = inquiry_text q
    /\ (is_Some (sendMail_result svc (transport_of cfg) m) ->
        outbox (handler cfg svc (mkRequest (Some form) fs) w).2 = outbox w ++ [m]).
Proof.
  intros Hb Hq Hreq Hp Hs.
  destruct (text_of_inquiry form q Hb Hq Hreq) as (Htext & Hfn & Hem).
  assert (Hm : mail_of cfg form fs
               = Some (Mail.mk (env_get cfg "FROM_EMAIL") (env_get cfg "TO_EMAIL")
                         (Str (Inquiry.email q))
                         ("New Inquiry - " +:+ Inquiry.full_name q)
                         (inquiry_text q)
                         (map (fun file => MailAttachment.mk (Attachment.originalname file)
                                             (Attachment.path file))
                              (attachments_of fs)))).
  { unfold mail_of. rewrite Htext, Hfn, Hem. reflexivity. }
  eexists. 
  destruct (persist_then_notify cfg svc form fs w Hreq Hp) as (w1 & -> & Hout & _).
  destruct (notify_outcome_sends cfg svc form fs w1 _ Hs Hm) as [Hlast Hbox].
  split; [exact Hlast|]. cbn [Mail.subject Mail.from Mail.to Mail.replyTo
                              Mail.attachments Mail.text].
  repeat split.
  - unfold attachments_of. rewrite map_map. reflexivity.
  - intros Hacc. now rewrite (Hbox Hacc), Hout.
Qed.

Lemma jane_inquiry :
  inquiry_of jane_form
  = Some (Inquiry.mk "Jane Doe" "jane@x.com" "555-1234" "" "" "" ""
            ["web"; "mobile"] "" "" "" "" "" [] [] "").
Proof. vm_compute. reflexivity. Qed.

Lemma jane_form_usable : bracketed_usable jane_form.
Proof.
  apply deliverable_usable. intros k Hk. unfold bracketed_keys in Hk.
  repeat (apply elem_of_cons in Hk as [-> | Hk]; [reflexivity|]).
  inversion Hk.
Qed.

Lemma outgoing_mail_format_witness :
  exists m,
    last (calls (handler full_cfg willing
                   (mkRequest (Some jane_form) (Some [stored full_cfg brief_part]))
                   empty_world).2)
    = Some (SendMailCall (transport_of full_cfg) m)
    /\ Mail.subject m = "New Inquiry - Jane Doe"
    /\ Mail.attachments m
       = [MailAttachment.mk "brief.txt" "/srv/uploads/1714557600000-brief.txt"].
Proof.
  destruct (outgoing_mail_format full_cfg willing jane_form
              (Some [stored full_cfg brief_part]) empty_world _
              jane_form_usable jane_inquiry)
    as (m & Hlast & Hsub & _ & _ & _ & Hatt & _).
  - reflexivity.
  - right. reflexivity.
  - reflexivity.
  - exists m. split; [exact Hlast|]. split; [exact Hsub | exact Hatt].
Defined.

(** The text of Jane Doe's mail has the line of the two platforms. *)
Example jane_text :
  exists before after,
    text_of jane_form
    = Some (before +:+ "Platform Required: web, mobile" +:+ LF +:+ after).
Proof.
  exists ("Full Name: Jane Doe" +:+ LF +:+ "Email: jane@x.com" +:+ LF
          +:+ "Phone: 555-1234" +:+ LF +:+ "Company: -" +:+ LF
          +:+ "Build Type: -" +:+ LF +:+ "Project Type: -" +:+ LF
          +:+ "Industry: -" +:+ LF).
  eexists. vm_compute. reflexivity.
Qed.

(** ** Failures *)

(** C9: the code at the failing inputs. A failed write, a sixth file and
    an oversized file are each answered by the framework's error page,
    status 500, not by a text of the handler; the store's and the relay's
    failures, inside the handler, are answered 500 "Server error". *)
Theorem upload_failure_not_generic :
  let huge := mkPart "attachments" "film.bin" "application/octet-stream"
                     10485761 1714557600000 true in
  let unwritten := endpoint full_cfg willing (Multipart [unwritten_part] jane_form)
                     empty_world in
  let too_many := endpoint full_cfg willing (Multipart six_parts jane_form)
                    empty_world in
  let too_large := endpoint full_cfg willing (Multipart [huge] jane_form)
                     empty_world in
  unwritten = (ErrorPage StorageFailure, empty_world)
  /\ too_many = (ErrorPage LIMIT_UNEXPECTED_FILE, empty_world)
  /\ too_large = (ErrorPage LIMIT_FILE_SIZE, empty_world)
  /\ status_of unwritten.1 = 500%N
  /\ handler_text unwritten.1 = None
  /\ handler_text (endpoint full_cfg store_down (Multipart [brief_part] jane_form)
                     empty_world).1 = Some "Server error"
  /\ handler_text (endpoint full_cfg relay_down (Multipart [brief_part] jane_form)
                     empty_world).1 = Some "Server error".
Proof. vm_compute. repeat split. Qed.

(** C10. When the store takes the document and the mail step then fails
    (the relay refuses the message, or composing it throws), the request is
    answered 500 "Server error" and the document is in the store all the
    same, after what was there. *)
Theorem insert_kept_when_mail_fails (cfg : Config) (svc : Services)
    (form : gmap string JsVal) (fs : option (list File.t)) (w : World) :
  required_present form = true ->
  ~ blank (mongoUri cfg) ->
  create_resolves svc (document_of svc form fs) = true ->
  mail_fails cfg svc form fs ->
  (handler cfg svc (mkRequest (Some form) fs) w).1 = Sent 500 "Server error"
  /\ store (handler cfg svc (mkRequest (Some form) fs) w).2
     = store w ++ [document_of svc form fs].
Proof.
  intros Hreq Hm Hc [Hs Hn]. apply truthy_true_not_blank in Hm.
  rewrite handler_run by exact Hreq. unfold notify_outcome.
  rewrite Hm, Hc, Hs. destruct Hn as [-> | (m & -> & ->)]; split; reflexivity.
Qed.

Lemma insert_kept_when_mail_fails_witness :
  (handler full_cfg relay_down (mkRequest (Some jane_form) None) empty_world).1
  = Sent 500 "Server error"
  /\ store (handler full_cfg relay_down (mkRequest (Some jane_form) None) empty_world).2
     = [document_of relay_down jane_form None].
Proof.
  apply (insert_kept_when_mail_fails full_cfg relay_down jane_form None empty_world).
  - reflexivity.
  - intros [H|H]; discriminate H.
  - reflexivity.
  - split; [reflexivity|]. right. eexists. split; reflexivity.
Defined.

(** ** Stored file names *)

Example digits_then_ex :
  digits_then "-my_file___.pdf" "1714557600000-my_file___.pdf" = true
  /\ digits_then "-my_file___.pdf" "-my_file___.pdf" = false
  /\ digits_then "-my_file___.pdf" "17x-my_file___.pdf" = false
  /\ digits_then "-my_file___.pdf" "17-my file___.pdf" = false.
Proof. repeat split. Qed.

Lemma allowed_occurs c : allowed c = occurs c kept_chars.
Proof. destruct c as [[] [] [] [] [] [] [] []]; reflexivity. Qed.

Lemma safeName_sanitized s : safeName s = sanitized s.
Proof.
  induction s as [|c s IH]; [reflexivity|].
  cbn [safeName sanitized]. now rewrite allowed_occurs, IH.
Qed.

Lemma append_cons c r t : String c r +:+ t = String c (r +:+ t).
Proof. reflexivity. Qed.

Lemma string_of_uint_digits d : all_digits (NilEmpty.string_of_uint d) = true.
Proof. induction d; cbn [NilEmpty.string_of_uint all_digits]; auto. Qed.

Lemma to_uint_nonnil n : N.to_uint n <> Decimal.Nil.
Proof.
  destruct n as [|p]; [discriminate|]. apply DecimalPos.Unsigned.to_uint_nonnil.
Qed.

Lemma number_to_string_digits n :
  exists c r, number_to_string n = String c r
              /\ is_digit c = true /\ all_digits r = true.
Proof.
  unfold number_to_string. pose proof (string_of_uint_digits (N.to_uint n)) as Hd.
  pose proof (to_uint_nonnil n) as Hn.
  destruct (N.to_uint n); try congruence;
    cbn [NilEmpty.string_of_uint all_digits] in *;
    apply andb_true_iff in Hd as [Hc Hr]; eauto.
Qed.

Lemma number_to_string_reads_back n :
  N.of_uint <$> NilEmpty.uint_of_string (number_to_string n) = Some n.
Proof.
  unfold number_to_string. rewrite NilEmpty.usu. simpl.
  now rewrite DecimalN.Unsigned.of_to.
Qed.

Lemma skip_digits_app r t : all_digits r = true -> skip_digits (r +:+ t) = skip_digits t.
Proof.
  induction r as [|c r IH]; [reflexivity|]. cbn [all_digits]. intros H.
  apply andb_true_iff in H as [Hc Hr]. rewrite append_cons. cbn [skip_digits].
  rewrite Hc. auto.
Qed.

(** C7. The name under which a file is stored is the clock's milliseconds in
    decimal (at least one digit, digits only, reading back as that number),
    a hyphen, and the original name with every character that is not an
    ASCII letter, a digit, '.', '_' or '-' replaced by '_'. A file sent as
    "my file!@#.pdf" is stored under a name matching
    [^\d+-my_file___\.pdf$]. *)
Theorem stored_filename_sanitized (cfg : Config) (p : Part) :
  File.filename (stored cfg p)
  = number_to_string (part_now p) +:+ "-" +:+ sanitized (part_originalname p)
  /\ File.path (stored cfg p) = uploadsDir cfg +:+ "/" +:+ File.filename (stored cfg p)
  /\ String.length (sanitized (part_originalname p))
     = String.length (part_originalname p)
  /\ number_to_string (part_now p) <> ""
  /\ all_digits (number_to_string (part_now p)) = true
  /\ N.of_uint <$> NilEmpty.uint_of_string (number_to_string (part_now p))
     = Some (part_now p)
  /\ (forall now, digits_then "-my_file___.pdf" (filename_cb now "my file!@#.pdf") = true).
Proof.
  split; [|split; [|split; [|split; [|split; [|split]]]]].
  - unfold stored, filename_cb. cbn [File.filename]. now rewrite safeName_sanitized.
  - reflexivity.
  - induction (part_originalname p) as [|c s IH]; [reflexivity|].
    cbn [sanitized String.length]. now rewrite IH.
  - destruct (number_to_string_digits (part_now p)) as (c & r & -> & _). discriminate.
  - destruct (number_to_string_digits (part_now p)) as (c & r & -> & Hc & Hr).
    cbn [all_digits]. now rewrite Hc, Hr.
  - apply number_to_string_reads_back.
  - intros now. unfold filename_cb.
    change (safeName "my file!@#.pdf") with "my_file___.pdf".
    destruct (number_to_string_digits now) as (c & r & -> & Hc & Hr).
    rewrite append_cons. unfold digits_then. rewrite Hc, skip_digits_app by exact Hr.
    reflexivity.
Qed.

(** ** Upload limits *)

Lemma upload_array_stored cfg room parts fs :
  upload_array cfg room parts = inr fs ->
  fs = stored cfg <$> parts
  /\ length parts <= room
  /\ Forall (fun p => (part_size p <= fileSize_limit)%N) parts.
Proof.
  revert room fs. induction parts as [|p parts IH]; intros room fs H.
  - cbn [upload_array] in H. injection H as <-.
    repeat split; [simpl; lia | constructor].
  - cbn [upload_array] in H.
    destruct (negb (String.eqb (part_fieldname p) upload_field)); [discriminate|].
    destruct room as [|room]; [discriminate|].
    destruct (N.ltb_spec fileSize_limit (part_size p)) as [Hlt|Hle]; [discriminate|].
    destruct (negb (part_written p)); [discriminate|].
    destruct (upload_array cfg room parts) as [e|fs'] eqn:Hrest; [discriminate|].
    injection H as <-. destruct (IH room fs' Hrest) as (-> & Hlen & Hall).
    repeat split; [simpl; lia | constructor; assumption].
Qed.

Lemma upload_array_too_many cfg room parts :
  room < length parts -> exists e, upload_array cfg room parts = inl e.
Proof.
  intros H. destruct (upload_array cfg room parts) as [e|fs] eqn:Hup; [eauto|].
  apply upload_array_stored in Hup as (_ & Hlen & _). lia.
Qed.

Lemma upload_array_too_large cfg room parts :
  Exists (fun p => (fileSize_limit < part_size p)%N) parts ->
  exists e, upload_array cfg room parts = inl e.
Proof.
  intros H. destruct (upload_array cfg room parts) as [e|fs] eqn:Hup; [eauto|].
  apply upload_array_stored in Hup as (_ & _ & Hall).
  apply Exists_exists in H as (p & Hin & Hp).
  rewrite Forall_forall in Hall. specialize (Hall p Hin). lia.
Qed.

(** C8. A document the route adds to the store has at most 5 attachments,
    each of at most 10 MiB. A request with more than 5 files (6, say) is
    refused by the middleware and the handler does not run: the world is
    untouched. So is a request with a file larger than 10 MiB. *)
Theorem upload_limits (cfg : Config) (svc : Services) (parts : list Part)
    (form : gmap string JsVal) (w : World) :
  (forall doc, doc ∈ store (endpoint cfg svc (Multipart parts form) w).2 ->
               doc ∈ store w \/ within_limits doc)
  /\ (5 < length parts ->
      exists e, endpoint cfg svc (Multipart parts form) w = (ErrorPage e, w))
  /\ (Exists (fun p => (10 * 1024 * 1024 < part_size p)%N) parts ->
      exists e, endpoint cfg svc (Multipart parts form) w = (ErrorPage e, w)).
Proof.
  split; [|split].
  - intros doc Hin. cbn [endpoint] in Hin.
    destruct (upload_array cfg maxCount parts) as [e|sf] eqn:Hup; [now left|].
    destruct (handler_store cfg svc (mkRequest (Some form) (Some sf)) w)
      as [Hs | (form' & Hf & _ & Hs)]; rewrite Hs in Hin; [now left|].
    apply elem_of_app in Hin as [Hin|Hin]; [now left|].
    apply list_elem_of_singleton in Hin. subst doc. right.
    apply upload_array_stored in Hup as (-> & Hlen & Hall).
    unfold within_limits, document_of, attachments_of.
    cbn [Submission.attachments files default]. split.
    + unfold id. rewrite length_map, length_fmap. exact Hlen.
    + unfold id. rewrite Forall_map, Forall_fmap. exact Hall.
  - intros Hlen. destruct (upload_array_too_many cfg maxCount parts Hlen) as [e He].
    exists e. cbn [endpoint]. now rewrite He.
  - intros Hbig. destruct (upload_array_too_large cfg maxCount parts Hbig) as [e He].
    exists e. cbn [endpoint]. now rewrite He.
Qed.

Lemma upload_limits_witness :
  let huge := [mkPart "attachments" "film.bin" "application/octet-stream"
                      10485761 1714557600000 true] in
  (exists e, endpoint full_cfg willing (Multipart six_parts jane_form) empty_world
             = (ErrorPage e, empty_world))
  /\ (exists e, endpoint full_cfg willing (Multipart huge jane_form) empty_world
                = (ErrorPage e, empty_world)).
Proof.
  intros huge. split.
  - apply (proj1 (proj2 (upload_limits full_cfg willing six_parts jane_form
                           empty_world))).
    simpl. lia.
  - apply (proj2 (proj2 (upload_limits full_cfg willing huge jane_form empty_world))).
    apply Exists_cons_hd. reflexivity.
Defined.

(** ** Allowed origins *)

Example corsOrigins_ex :
  corsOrigins (mkConfig (list_to_map
     [("CORS_ORIGIN", " https://a.example ,https://b.example,, ")]) "/srv/uploads")
  = ["https://a.example"; "https://b.example"].
Proof. vm_compute. reflexivity. Qed.

Example split_on_ex :
  split_on "," "" = [""] /\ split_on "," "a,,b" = ["a"; ""; "b"]
  /\ split_on "," ",a," = [""; "a"; ""].
Proof. repeat split. Qed.

Example trim_ex : trim "  a b  " = "a b" /\ trim "   " = "" /\ trim "" = "".
Proof. repeat split. Qed.

Lemma split_on_cons sep s : exists piece pieces, split_on sep s = piece :: pieces.
Proof.
  induction s as [|c s (piece & pieces & IH)]; cbn [split_on]; [eauto|].
  destruct (Ascii.eqb c sep); [eauto|]. rewrite IH. eauto.
Qed.

Lemma split_on_pieces_free sep s :
  Forall (fun p => all_chars (fun c => negb (Ascii.eqb c sep)) p = true)
         (split_on sep s).
Proof.
  induction s as [|c s IH]; cbn [split_on].
  - repeat constructor.
  - destruct (Ascii.eqb c sep) eqn:E; [constructor; [reflexivity|exact IH]|].
    destruct (split_on sep s) as [|piece pieces]; [repeat constructor; cbn; now rewrite E|].
    inversion IH as [|? ? Hp Hps]; subst. constructor; [|exact Hps].
    cbn [all_chars]. now rewrite E, Hp.
Qed.

Lemma split_on_free_prefix sep x t :
  all_chars (fun c => negb (Ascii.eqb c sep)) x = true ->
  split_on sep (x +:+ String sep t) = x :: split_on sep t.
Proof.
  induction x as [|c x IH]; intros H.
  - change (EmptyString +:+ String sep t) with (String sep t). cbn [split_on].
    now rewrite Ascii.eqb_refl.
  - cbn [all_chars] in H. apply andb_true_iff in H as [Hc Hx].
    rewrite append_cons. cbn [split_on]. apply negb_true_iff in Hc. rewrite Hc.
    now rewrite (IH Hx).
Qed.

Lemma split_on_free sep x :
  all_chars (fun c => negb (Ascii.eqb c sep)) x = true -> split_on sep x = [x].
Proof.
  induction x as [|c x IH]; intros H; [reflexivity|].
  cbn [all_chars] in H. apply andb_true_iff in H as [Hc Hx].
  cbn [split_on]. apply negb_true_iff in Hc. now rewrite Hc, (IH Hx).
Qed.

Lemma split_on_join (l : list string) :
  l <> [] -> Forall (fun p => all_chars not_comma p = true) l ->
  split_on "," (join "," l) = l.
Proof.
  induction l as [|x l IH]; intros Hne Hall; [congruence|].
  inversion Hall as [|? ? Hx Hl]; subst. destruct l as [|y l].
  - cbn [join]. now apply split_on_free.
  - change (join "," (x :: y :: l)) with (x +:+ String "," (join "," (y :: l))).
    rewrite split_on_free_prefix by exact Hx. f_equal. now apply IH.
Qed.

Lemma all_chars_skip_space ok s :
  all_chars ok s = true -> all_chars ok (skip_space s) = true.
Proof.
  induction s as [|c s IH]; [trivial|]. intros H. cbn [skip_space].
  destruct (is_space c); [|exact H].
  cbn [all_chars] in H. apply andb_true_iff in H as [_ H]. auto.
Qed.

Lemma trim_end_cases c s :
  trim_end (String c s) = EmptyString /\ trim_end s = EmptyString /\ is_space c = true
  \/ trim_end (String c s) = String c (trim_end s).
Proof.
  cbn [trim_end]. destruct (trim_end s) eqn:E; [|now right].
  destruct (is_space c); [left|right]; auto.
Qed.

Lemma all_chars_trim_end ok s :
  all_chars ok s = true -> all_chars ok (trim_end s) = true.
Proof.
  induction s as [|c s IH]; [trivial|]. intros H.
  cbn [all_chars] in H. apply andb_true_iff in H as [Hc Hs].
  destruct (trim_end_cases c s) as [(-> & _ & _) | ->]; [reflexivity|].
  cbn [all_chars]. now rewrite Hc, IH.
Qed.

Lemma trim_end_idem s : trim_end (trim_end s) = trim_end s.
Proof.
  induction s as [|c s IH]; [reflexivity|].
  destruct (trim_end_cases c s) as [(-> & _ & _)|Heq]; [reflexivity|].
  rewrite Heq. destruct (trim_end_cases c (trim_end s)) as [(_ & He & Hc) | ->].
  - rewrite IH in He. cbn [trim_end] in Heq |- *. rewrite He in Heq |- *.
    now rewrite Hc in Heq |- *.
  - now rewrite IH.
Qed.

Lemma skip_space_head s :
  skip_space s = EmptyString
  \/ exists c r, skip_space s = String c r /\ is_space c = false.
Proof.
  induction s as [|c s IH]; [now left|]. cbn [skip_space].
  destruct (is_space c) eqn:E; [exact IH|]. right. eauto.
Qed.

Lemma skip_space_trim_end s :
  (s = EmptyString \/ exists c r, s = String c r /\ is_space c = false) ->
  skip_space (trim_end s) = trim_end s.
Proof.
  intros [-> | (c & r & -> & Hc)]; [reflexivity|].
  destruct (trim_end_cases c r) as [(_ & _ & Hsp) | ->]; [congruence|].
  cbn [skip_space]. now rewrite Hc.
Qed.

Lemma trim_idem s : trim (trim s) = trim s.
Proof.
  unfold trim. rewrite skip_space_trim_end by apply skip_space_head.
  apply trim_end_idem.
Qed.

Lemma all_chars_trim ok s : all_chars ok s = true -> all_chars ok (trim s) = true.
Proof. intros H. unfold trim. now apply all_chars_trim_end, all_chars_skip_space. Qed.

Lemma nonempty_true s : nonempty s = true <-> s <> "".
Proof. unfold nonempty. now rewrite negb_true_iff, String.eqb_neq. Qed.

Lemma env_or_empty cfg name :
  env_or cfg name "" = match env cfg !! name with Some v => v | None => "" end.
Proof.
  unfold env_or. destruct (env cfg !! name) as [v|]; [|reflexivity].
  destruct (String.eqb_spec v ""); [now subst|reflexivity].
Qed.

(** X1. Every origin in the list is non-empty, has no comma in it and has
    no white space at either end (trimming it again changes nothing). *)
Theorem corsOrigins_clean (cfg : Config) (o : string) :
  o ∈ corsOrigins cfg ->
  o <> "" /\ all_chars not_comma o = true /\ trim o = o.
Proof.
  unfold corsOrigins. rewrite list_elem_of_In, filter_In, in_map_iff.
  intros [(p & <- & Hin) Hne]. split; [now apply nonempty_true|]. split.
  - apply all_chars_trim.
    pose proof (split_on_pieces_free ","
      (env_or cfg "CORS_ORIGIN" "")) as Hall.
    rewrite Forall_forall in Hall. apply (Hall p), list_elem_of_In, Hin.
  - apply trim_idem.
Qed.

(** X2. When [CORS_ORIGIN] is a list of pieces joined with commas, the
    origins are the trimmed pieces, the empty ones dropped, in order; so a
    list of clean origins (non-empty, comma-free, trimmed) is read back as
    it is. *)
Theorem corsOrigins_of_joined (cfg : Config) (pieces : list string) :
  Forall (fun p => all_chars not_comma p = true) pieces ->
  env cfg !! "CORS_ORIGIN" = Some (join "," pieces) ->
  corsOrigins cfg = List.filter nonempty (map trim pieces)
  /\ (Forall (fun p => p <> "" /\ trim p = p) pieces -> corsOrigins cfg = pieces).
Proof.
  intros Hfree Henv.
  assert (Hgen : corsOrigins cfg = List.filter nonempty (map trim pieces)).
  { unfold corsOrigins. rewrite env_or_empty, Henv.
    destruct pieces as [|x l]; [reflexivity|]. now rewrite split_on_join. }
  split; [exact Hgen|]. intros Hclean. rewrite Hgen. clear -Hclean.
  induction Hclean as [|p l [Hp Ht] _ IH]; [reflexivity|].
  cbn [map List.filter]. rewrite Ht. apply nonempty_true in Hp. rewrite Hp.
  now rewrite IH.
Qed.

Lemma skip_space_empty s : skip_space s = "" <-> all_chars is_space s = true.
Proof.
  induction s as [|c s IH]; [easy|]. cbn [skip_space all_chars].
  destruct (is_space c); [exact IH|]. split; discriminate.
Qed.

Lemma trim_end_empty s : trim_end s = "" <-> all_chars is_space s = true.
Proof.
  induction s as [|c s IH]; [easy|]. cbn [trim_end all_chars].
  rewrite andb_true_iff, <- IH. destruct (trim_end s) as [|d kept].
  - destruct (is_space c); split; try tauto; try discriminate.
    intros [Hc _]. discriminate Hc.
  - split; [discriminate|]. intros [_ He]. discriminate He.
Qed.

Lemma all_space_skip_space s :
  all_chars is_space (skip_space s) = all_chars is_space s.
Proof.
  induction s as [|c s IH]; [reflexivity|]. cbn [skip_space all_chars].
  destruct (is_space c) eqn:E; [exact IH|]. cbn [all_chars]. now rewrite E.
Qed.

Lemma trim_empty s : trim s = "" <-> all_chars is_space s = true.
Proof. unfold trim. now rewrite trim_end_empty, all_space_skip_space. Qed.

Lemma split_on_all_space s :
  Forall (fun p => all_chars is_space p = true) (split_on "," s)
  <-> all_chars comma_or_space s = true.
Proof.
  induction s as [|c s IH]; cbn [split_on all_chars].
  - split; [reflexivity|]. intros _. now repeat constructor.
  - unfold comma_or_space at 1. rewrite andb_true_iff, <- IH.
    destruct (Ascii.eqb c ",") eqn:E; cbn [orb].
    + rewrite Forall_cons. cbn [all_chars]. tauto.
    + destruct (split_on_cons "," s) as (piece & pieces & ->).
      rewrite !Forall_cons. cbn [all_chars]. rewrite andb_true_iff. tauto.
Qed.

Lemma no_origin_kept (l : list string) :
  List.filter nonempty (map trim l) = [] <-> Forall (fun p => trim p = "") l.
Proof.
  induction l as [|p l IH]; cbn [map List.filter].
  - split; [constructor|reflexivity].
  - rewrite Forall_cons, <- IH. unfold nonempty at 1.
    destruct (String.eqb_spec (trim p) ""); cbn [negb]; [tauto|].
    split; [discriminate|tauto].
Qed.

(** X3. Any origin is allowed exactly when [CORS_ORIGIN] is unset or holds
    nothing but commas and white space; as soon as it holds another
    character, the allowed origins are a list. *)
Theorem cors_any_origin_iff (cfg : Config) :
  cors_origin cfg = AnyOrigin
  <-> (env cfg !! "CORS_ORIGIN" = None
       \/ exists v, env cfg !! "CORS_ORIGIN" = Some v
                    /\ all_chars comma_or_space v = true).
Proof.
  assert (H : cors_origin cfg = AnyOrigin <-> corsOrigins cfg = []).
  { unfold cors_origin. destruct (corsOrigins cfg); split; congruence. }
  rewrite H. unfold corsOrigins. rewrite no_origin_kept, env_or_empty.
  rewrite (Forall_iff _ _ (fun p => all_chars is_space p = true))
    by (intros p; apply trim_empty).
  rewrite split_on_all_space.
  destruct (env cfg !! "CORS_ORIGIN") as [v|].
  - split; [intros Hv; right; eauto|].
    intros [Hn|(v' & Hv' & Hall)]; [discriminate|]. now injection Hv' as ->.
  - split; [now left|reflexivity].
Qed.

Lemma corsOrigins_clean_witness :
  "https://b.example" ∈ corsOrigins (mkConfig (list_to_map
     [("CORS_ORIGIN", " https://a.example ,https://b.example,, ")]) "/srv/uploads")
  /\ trim "https://b.example" = "https://b.example".
Proof.
  assert (H : "https://b.example" ∈ corsOrigins (mkConfig (list_to_map
     [("CORS_ORIGIN", " https://a.example ,https://b.example,, ")]) "/srv/uploads")).
  { apply list_elem_of_In. vm_compute. right. left. reflexivity. }
  split; [exact H|]. exact (proj2 (proj2 (corsOrigins_clean _ _ H))).
Defined.

Lemma corsOrigins_of_joined_witness :
  corsOrigins (mkConfig (list_to_map
     [("CORS_ORIGIN", "https://a.example,https://b.example")]) "/srv/uploads")
  = ["https://a.example"; "https://b.example"].
Proof.
  apply (corsOrigins_of_joined
           (mkConfig (list_to_map
              [("CORS_ORIGIN", "https://a.example,https://b.example")]) "/srv/uploads")
           ["https://a.example"; "https://b.example"]).
  - repeat constructor.
  - reflexivity.
  - repeat constructor; discriminate.
Defined.

Lemma cors_any_origin_iff_witness :
  cors_origin (mkConfig (list_to_map [("CORS_ORIGIN", " , ,")]) "/srv/uploads")
  = AnyOrigin.
Proof.
  apply (proj2 (cors_any_origin_iff
                  (mkConfig (list_to_map [("CORS_ORIGIN", " , ,")]) "/srv/uploads"))).
  right. exists " , ,". split; reflexivity.
Defined.

(** ** The handler: replies and effects *)

Lemma persistence_ok_dec cfg svc form fs :
  persistence_ok cfg svc form fs
  <-> negb (truthy (mongoUri cfg)) || create_resolves svc (document_of svc form fs)
      = true.
Proof.
  unfold persistence_ok. rewrite orb_true_iff, negb_true_iff, truthy_false_blank.
  reflexivity.
Qed.

Lemma persistence_fails_dec cfg svc form fs :
  persistence_fails cfg svc form fs
  <-> negb (truthy (mongoUri cfg)) || create_resolves svc (document_of svc form fs)
      = false.
Proof.
  unfold persistence_fails. rewrite orb_false_iff, negb_false_iff, truthy_true_not_blank.
  reflexivity.
Qed.

Lemma mail_ok_dec cfg svc form fs :
  mail_ok cfg svc form fs
  <-> negb (smtp_configured cfg) || mail_accepted cfg svc form fs = true.
Proof.
  unfold mail_ok, mail_accepted. rewrite orb_true_iff, negb_true_iff.
  destruct (mail_of cfg form fs) as [m|].
  - rewrite bool_decide_eq_true. split.
    + intros [H | (m' & Hm & Hacc)]; [now left|]. injection Hm as <-. now right.
    + intros [H|H]; [now left|]. right. eauto.
  - split.
    + intros [H | (m' & Hm & _)]; [now left | discriminate Hm].
    + intros [H|H]; [now left | discriminate H].
Qed.

Lemma mail_fails_dec cfg svc form fs :
  mail_fails cfg svc form fs
  <-> negb (smtp_configured cfg) || mail_accepted cfg svc form fs = false.
Proof.
  unfold mail_fails, mail_accepted. rewrite orb_false_iff, negb_false_iff.
  destruct (mail_of cfg form fs) as [m|].
  - rewrite bool_decide_eq_false, <- eq_None_not_Some. split.
    + intros [Hs [H | (m' & Hm & Hn)]]; [discriminate H|]. injection Hm as <-. auto.
    + intros [Hs Hn]. split; [exact Hs|]. right. eauto.
  - split.
    + intros [Hs _]. auto.
    + intros [Hs _]. split; [exact Hs | now left].
Qed.

(** X4. What the handler replies. Without a body ([req.body] undefined, a
    request that is not multipart) it replies 500 "Server error". With a
    body it gives one of three replies: 400 exactly when a required field
    is blank; 200 exactly when none is, the persistence step does not fail
    and the mail step does not fail; 500 exactly when none is and the store
    refuses the document, or composing the mail throws, or the relay
    refuses the message. *)
Theorem handler_reply_decided (cfg : Config) (svc : Services) (w : World) :
  (forall fs, (handler cfg svc (mkRequest None fs) w).1 = Sent 500 "Server error")
  /\ (forall form fs,
        let reply := (handler cfg svc (mkRequest (Some form) fs) w).1 in
        (reply = Sent 400 "Missing required fields" \/ reply = Sent 200 "OK"
         \/ reply = Sent 500 "Server error")
        /\ (reply = Sent 400 "Missing required fields"
            <-> required_present form = false)
        /\ (reply = Sent 200 "OK"
            <-> required_present form = true /\ persistence_ok cfg svc form fs
                /\ mail_ok cfg svc form fs)
        /\ (reply = Sent 500 "Server error"
            <-> required_present form = true
                /\ (persistence_fails cfg svc form fs \/ mail_fails cfg svc form fs))).
Proof.
  split; [reflexivity|]. intros form fs. cbv zeta.
  rewrite persistence_ok_dec, persistence_fails_dec, mail_ok_dec, mail_fails_dec.
  unfold mail_accepted.
  handler_paths cfg svc form fs; cbn;
    repeat split; auto; try discriminate; try tauto; intuition discriminate.
Qed.

(** X5. The handler only ever appends: what was in the store and in the
    outbox stays, in place; at most one document is added, the one built
    from the request, and at most one message, the one composed from it. *)
Theorem handler_appends_only (cfg : Config) (svc : Services) (req : Request)
    (w : World) :
  exists docs mails,
    store (handler cfg svc req w).2 = store w ++ docs
    /\ outbox (handler cfg svc req w).2 = outbox w ++ mails
    /\ (docs = []
        \/ exists form, body req = Some form
                        /\ docs = [document_of svc form (files req)])
    /\ (mails = []
        \/ exists form m, body req = Some form
                          /\ mail_of cfg form (files req) = Some m /\ mails = [m]).
Proof.
  destruct req as [[form|] fs]; cbn [body files].
  - handler_paths cfg svc form fs; cbn;
      match goal with
      | |- exists docs mails, _ ++ ?d = _ /\ _ ++ ?m = _ /\ _ => exists d, m
      | |- exists docs mails, _ ++ ?d = _ /\ _ => exists d, []
      | |- exists docs mails, _ /\ _ ++ ?m = _ /\ _ => exists [], m
      | |- _ => exists [], []
      end;
      rewrite ?app_nil_r; (split; [reflexivity|]); (split; [reflexivity|]);
      (split; [first [now left | right; eauto] | first [now left | right; eauto]]).
  - rewrite handler_no_body. exists [], []. rewrite !app_nil_r. auto.
Qed.

(** X6. The calls the handler makes to the outside, exactly. Without a
    body, none. With a body: a create when the required fields are there
    and the store is configured; after it a send when moreover the create
    was not refused, the relay is configured and composing the message did
    not throw. So never two creates, never a send before the create, and no
    send once the create was refused or the composing threw. *)
Theorem handler_calls_exactly (cfg : Config) (svc : Services) (w : World) :
  (forall fs, calls (handler cfg svc (mkRequest None fs) w).2 = calls w)
  /\ (forall form fs,
        calls (handler cfg svc (mkRequest (Some form) fs) w).2
        = calls w
          ++ (if required_present form && truthy (mongoUri cfg)
              then [CreateCall (document_of svc form fs)] else [])
          ++ (if required_present form
                 && (negb (truthy (mongoUri cfg))
                     || create_resolves svc (document_of svc form fs))
                 && smtp_configured cfg
              then match mail_of cfg form fs with
                   | Some m => [SendMailCall (transport_of cfg) m]
                   | None => []
                   end
              else [])).
Proof.
  split; [reflexivity|]. intros form fs.
  handler_paths cfg svc form fs; cbn; rewrite <- ?app_assoc, ?app_nil_r; reflexivity.
Qed.

(** X7. What the handler writes to the console. When it answers 400 or
    500, nothing: a caught error is not logged. When it answers 200, one
    line: the warning that mail is not configured when a relay setting is
    missing, and otherwise the receipt [Email sent] with the message id and
    the accepted and rejected addresses the relay returned for the message
    composed from the request. *)
Theorem handler_console (cfg : Config) (svc : Services) (req : Request) (w : World) :
  ((handler cfg svc req w).1 <> Sent 200 "OK" ->
   console (handler cfg svc req w).2 = console w)
  /\ ((handler cfg svc req w).1 = Sent 200 "OK" ->
      smtp_configured cfg = false ->
      console (handler cfg svc req w).2
      = console w ++ [Warn "Email not sent: SMTP settings are missing."])
  /\ ((handler cfg svc req w).1 = Sent 200 "OK" ->
      smtp_configured cfg = true ->
      exists form m info,
        body req = Some form /\ mail_of cfg form (files req) = Some m
        /\ sendMail_result svc (transport_of cfg) m = Some info
        /\ console (handler cfg svc req w).2
           = console w ++ [EmailSent (messageId info) (accepted info) (rejected info)]).
Proof.
  destruct req as [[form|] fs]; cbn [body files].
  - handler_paths cfg svc form fs; cbn; repeat split;
      try congruence; try discriminate; intros _ _; eauto 10.
  - rewrite handler_no_body. cbn. repeat split; discriminate.
Qed.

Lemma handler_console_witness :
  console (handler full_cfg store_down (mkRequest (Some jane_form) None) empty_world).2
  = []
  /\ console (handler store_only_cfg willing (mkRequest (Some jane_form) None)
                empty_world).2
     = [Warn "Email not sent: SMTP settings are missing."]
  /\ console (handler full_cfg willing (mkRequest (Some jane_form) None) empty_world).2
     = [EmailSent "<1@example.com>" ["inbox@example.com"] []].
Proof.
  split; [|split].
  - apply (proj1 (handler_console full_cfg store_down
                    (mkRequest (Some jane_form) None) empty_world)).
    discriminate.
  - apply (proj1 (proj2 (handler_console store_only_cfg willing
                           (mkRequest (Some jane_form) None) empty_world)));
      reflexivity.
  - destruct (proj2 (proj2 (handler_console full_cfg willing
                              (mkRequest (Some jane_form) None) empty_world))
                eq_refl eq_refl) as (form & m & info & _ & _ & Hinfo & Hcon).
    injection Hinfo as <-. exact Hcon.
Defined.

Lemma get_insert_other (form : gmap string JsVal) k v k' :
  k <> k' -> get (<[k:=v]> form) k' = get form k'.
Proof. intros H. unfold get. now rewrite lookup_insert_ne. Qed.

(** X8. A form field under a key the handler does not read changes nothing:
    with or without it, the reply and the world after are the same. *)
Theorem unknown_field_ignored (cfg : Config) (svc : Services)
    (form : gmap string JsVal) (k : string) (v : JsVal)
    (fs : option (list File.t)) (w : World) :
  k ∉ known_keys ->
  handler cfg svc (mkRequest (Some (<[k:=v]> form)) fs) w
  = handler cfg svc (mkRequest (Some form) fs) w.
Proof.
  intros Hk.
  assert (Hne : forall k', k' ∈ known_keys -> k <> k') by (intros k' Hin ->; auto).
  unfold handler, handler_body, multi_field. cbn [body files].
  unfold bind at 1 3. cbn [or_type_error ret].
  rewrite !get_insert_other by (apply Hne; unfold known_keys; repeat constructor).
  reflexivity.
Qed.

Lemma unknown_field_ignored_witness :
  handler full_cfg willing
    (mkRequest (Some (<["favourite_colour" := Obj [("a", Str "teal")]]> jane_form)) None)
    empty_world
  = handler full_cfg willing (mkRequest (Some jane_form) None) empty_world.
Proof.
  apply (unknown_field_ignored full_cfg willing jane_form "favourite_colour"
           (Obj [("a", Str "teal")]) None empty_world).
  unfold known_keys. intros H. repeat (apply elem_of_cons in H as [H|H]; [discriminate H|]).
  apply elem_of_nil in H. exact H.
Defined.

Lemma js_or_empty (v : JsVal) :
  (blank v -> js_or v (Str "") = Str "") /\ (~ blank v -> js_or v (Str "") = v).
Proof.
  unfold js_or. destruct (truthy v) eqn:Ht.
  - apply truthy_true_not_blank in Ht. split; [intros H; now destruct Ht | reflexivity].
  - apply truthy_false_blank in Ht. split; [reflexivity | intros H; now destruct H].
Qed.

(** X9. Every document the handler hands to the store is built from the
    body of the request: each of the ten optional scalar fields is the
    empty string when the submitted value is missing or empty and the
    submitted value otherwise, and [created_at] is the clock's reading. *)
Theorem created_document_defaults (cfg : Config) (svc : Services) (req : Request)
    (w : World) (doc : Submission.t) :
  CreateCall doc ∈ calls (handler cfg svc req w).2 ->
  CreateCall doc ∈ calls w
  \/ exists form,
       body req = Some form
       /\ Submission.created_at doc = toISOString_now svc
       /\ Forall (fun kf : string * (Submission.t -> JsVal) =>
                    (blank (get form kf.1) -> kf.2 doc = Str "")
                    /\ (~ blank (get form kf.1) -> kf.2 doc = get form kf.1))
                 optional_fields.
Proof.
  destruct req as [[form|] fs]; cbn [body files].
  - assert (Hdoc : Forall (fun kf : string * (Submission.t -> JsVal) =>
                      (blank (get form kf.1) -> kf.2 (document_of svc form fs) = Str "")
                      /\ (~ blank (get form kf.1) ->
                          kf.2 (document_of svc form fs) = get form kf.1))
                     optional_fields).
    { unfold optional_fields, document_of. cbn.
      repeat (constructor; [apply js_or_empty|]). constructor. }
    handler_paths cfg svc form fs; cbn; intros Hin;
      repeat (apply elem_of_app in Hin as [Hin|Hin];
              [|apply list_elem_of_singleton in Hin]);
      try (left; exact Hin); try discriminate Hin;
      injection Hin as ->; right; exists form;
      (split; [reflexivity|]); (split; [reflexivity|exact Hdoc]).
  - rewrite handler_no_body. cbn. auto.
Qed.

Lemma created_document_defaults_witness :
  Submission.created_at (document_of willing (<["budget" := Str "5k"]> jane_form) None)
  = "2024-05-01T10:00:00.000Z"
  /\ Submission.company (document_of willing (<["budget" := Str "5k"]> jane_form) None)
     = Str ""
  /\ Submission.budget (document_of willing (<["budget" := Str "5k"]> jane_form) None)
     = Str "5k".
Proof.
  destruct (created_document_defaults full_cfg willing
              (mkRequest (Some (<["budget" := Str "5k"]> jane_form)) None) empty_world
              (document_of willing (<["budget" := Str "5k"]> jane_form) None))
    as [H | (form & Hform & Hat & Hall)].
  - apply list_elem_of_In. vm_compute. left. reflexivity.
  - apply elem_of_nil in H. destruct H.
  - injection Hform as <-. split; [exact Hat|].
    rewrite Forall_forall in Hall. split.
    + apply (Hall ("company", Submission.company)).
      * unfold optional_fields. repeat constructor.
      * left. reflexivity.
    + apply (Hall ("budget", Submission.budget)).
      * unfold optional_fields. repeat constructor.
      * intros [H|H]; vm_compute in H; discriminate H.
Defined.

(** X10. When a request is stored and its mail composes, the message is
    about the stored document: the create comes first and the send second,
    reply-to is the document's email, the subject is [New Inquiry - ]
    followed by the document's full name as text, and the attachments of
    the message are those of the document, one for one and in order, under
    the original name and the stored path. *)
Theorem mail_matches_document (cfg : Config) (svc : Services)
    (form : gmap string JsVal) (fs : option (list File.t)) (w : World)
    (m : Mail.t) :
  required_present form = true ->
  ~ blank (mongoUri cfg) ->
  create_resolves svc (document_of svc form fs) = true ->
  smtp_configured cfg = true ->
  mail_of cfg form fs = Some m ->
  exists doc,
    calls (handler cfg svc (mkRequest (Some form) fs) w).2
    = calls w ++ [CreateCall doc; SendMailCall (transport_of cfg) m]
    /\ Mail.replyTo m = Submission.email doc
    /\ (exists name, to_string (Submission.full_name doc) = Some name
                     /\ Mail.subject m = "New Inquiry - " +:+ name)
    /\ Mail.attachments m
       = map (fun a => MailAttachment.mk (Attachment.originalname a) (Attachment.path a))
             (Submission.attachments doc)
    /\ length (Submission.attachments doc) = length (default [] fs).
Proof.
  intros Hreq Hm Hc Hs Hmail. apply truthy_true_not_blank in Hm.
  exists (document_of svc form fs).
  rewrite handler_run by exact Hreq. unfold notify_outcome. rewrite Hm, Hc, Hs, Hmail.
  split.
  { destruct (sendMail_result svc _ _); cbn; now rewrite <- app_assoc. }
  unfold mail_of in Hmail.
  destruct (text_of form) as [text|]; [|discriminate Hmail].
  destruct (to_string (get form "full_name")) as [name|] eqn:Hname;
    [|discriminate Hmail].
  cbn in Hmail. injection Hmail as <-. cbn.
  split; [reflexivity|]. split; [exists name; split; [exact Hname|reflexivity]|].
  split; [reflexivity|]. unfold attachments_of. apply length_map.
Qed.

Lemma mail_matches_document_witness :
  exists doc m,
    calls (handler full_cfg willing
             (mkRequest (Some jane_form) (Some [stored full_cfg brief_part]))
             empty_world).2
    = [CreateCall doc; SendMailCall (transport_of full_cfg) m]
    /\ Mail.replyTo m = Submission.email doc
    /\ length (Submission.attachments doc) = 1.
Proof.
  destruct (mail_of full_cfg jane_form (Some [stored full_cfg brief_part]))
    as [m|] eqn:Hmail; [|discriminate Hmail].
  destruct (mail_matches_document full_cfg willing jane_form
              (Some [stored full_cfg brief_part]) empty_world m)
    as (doc & Hcalls & Hreply & _ & _ & Hlen).
  - reflexivity.
  - intros [H|H]; discriminate H.
  - reflexivity.
  - reflexivity.
  - exact Hmail.
  - exists doc, m. split; [exact Hcalls|]. split; [exact Hreply|exact Hlen].
Defined.

(** X11. The start-up warning tells the truth: it is printed exactly when no
    request, whatever the services answer, adds anything to the store. *)
Theorem startup_warning_truthful (cfg : Config) :
  startup_console cfg
  = [Warn "MONGODB_URI is not set. Submissions will not be saved."]
  <-> (forall svc req w, store (handler cfg svc req w).2 = store w).
Proof.
  unfold startup_console. destruct (truthy (mongoUri cfg)) eqn:Hm; cbn [negb]; split.
  - discriminate.
  - intros H. specialize (H willing (mkRequest (Some jane_form) None) empty_world).
    rewrite handler_run in H by reflexivity. rewrite Hm in H.
    change (create_resolves willing _) with true in H. cbv iota in H.
    rewrite notify_outcome_store in H. discriminate H.
  - intros _ svc [[form|] fs] w; [|reflexivity].
    handler_paths cfg svc form fs; try discriminate; reflexivity.
  - reflexivity.
Qed.

(** ** Stored names *)

Lemma all_chars_app ok a b :
  all_chars ok (a +:+ b) = all_chars ok a && all_chars ok b.
Proof.
  induction a as [|c a IH]; [reflexivity|].
  rewrite append_cons. cbn [all_chars]. now rewrite IH, andb_assoc.
Qed.

Lemma all_chars_impl (ok ok' : ascii -> bool) s :
  (forall c, ok c = true -> ok' c = true) ->
  all_chars ok s = true -> all_chars ok' s = true.
Proof.
  intros Himp. induction s as [|c s IH]; [trivial|]. cbn [all_chars].
  rewrite !andb_true_iff. intros [Hc Hs]. auto.
Qed.

Lemma all_chars_occurs ok c s :
  all_chars ok s = true -> ok c = false -> occurs c s = false.
Proof.
  intros Hs Hc. induction s as [|d s IH]; [reflexivity|].
  cbn [all_chars occurs] in *. apply andb_true_iff in Hs as [Hd Hs].
  rewrite (IH Hs), orb_false_r. destruct (Ascii.eqb_spec c d); [congruence|reflexivity].
Qed.

Lemma is_digit_allowed c : is_digit c = true -> allowed c = true.
Proof. unfold allowed, is_digit. intros ->. now rewrite !orb_true_r. Qed.

Lemma all_digits_all_chars s : all_digits s = all_chars is_digit s.
Proof. induction s as [|c s IH]; [reflexivity|]. cbn. now rewrite IH. Qed.

Lemma safeName_allowed s : all_chars allowed (safeName s) = true.
Proof.
  induction s as [|c s IH]; [reflexivity|]. cbn [safeName all_chars].
  rewrite IH, andb_true_r. destruct (allowed c) eqn:E; [exact E|reflexivity].
Qed.

Lemma safeName_fixed s : all_chars allowed s = true <-> safeName s = s.
Proof.
  split.
  - induction s as [|c s IH]; [reflexivity|]. cbn [all_chars safeName].
    rewrite andb_true_iff. intros [-> Hs]. now rewrite IH.
  - intros <-. apply safeName_allowed.
Qed.

(** X12. A sanitised name holds allowed characters only; sanitising leaves a
    name alone exactly when it holds allowed characters only; and sanitising
    twice is sanitising once. *)
Theorem safeName_idempotent (s : string) :
  all_chars allowed (safeName s) = true
  /\ (safeName s = s <-> all_chars allowed s = true)
  /\ safeName (safeName s) = safeName s.
Proof.
  split; [apply safeName_allowed|]. split.
  - symmetry. apply safeName_fixed.
  - apply safeName_fixed, safeName_allowed.
Qed.

(** X13. A stored file name holds allowed characters only, whatever the
    client called the file: so it has no slash, no backslash and no NUL in
    it, and it starts with a digit (it is neither empty, nor "." nor ".."). *)
Theorem stored_filename_safe (cfg : Config) (p : Part) :
  let name := File.filename (stored cfg p) in
  all_chars allowed name = true
  /\ occurs "/" name = false /\ occurs "\" name = false
  /\ occurs (ascii_of_nat 0) name = false
  /\ exists c rest, name = String c rest /\ is_digit c = true.
Proof.
  cbv zeta. unfold stored. cbn [File.filename]. unfold filename_cb.
  assert (Hall : all_chars allowed
            (number_to_string (part_now p) +:+ "-" +:+ safeName (part_originalname p))
          = true).
  { rewrite !all_chars_app, safeName_allowed.
    change (all_chars allowed "-") with true. cbn [andb]. rewrite andb_true_r.
    destruct (number_to_string_digits (part_now p)) as (c & r & -> & Hc & Hr).
    cbn [all_chars]. rewrite (is_digit_allowed _ Hc). cbn [andb].
    rewrite all_digits_all_chars in Hr.
    apply (all_chars_impl is_digit); [apply is_digit_allowed|exact Hr]. }
  split; [exact Hall|].
  repeat split; try (apply (all_chars_occurs allowed); [exact Hall|reflexivity]).
  destruct (number_to_string_digits (part_now p)) as (c & r & -> & Hc & _).
  rewrite append_cons. eauto.
Qed.

Lemma digits_hyphen_split d1 d2 r1 r2 :
  all_digits d1 = true -> all_digits d2 = true ->
  d1 +:+ String "-" r1 = d2 +:+ String "-" r2 -> d1 = d2 /\ r1 = r2.
Proof.
  revert d2. induction d1 as [|c d1 IH]; intros [|c2 d2] H1 H2 Heq.
  - injection Heq as ->. auto.
  - rewrite append_cons in Heq. injection Heq as <- _.
    cbn [all_digits] in H2. discriminate H2.
  - rewrite append_cons in Heq. injection Heq as -> _.
    cbn [all_digits] in H1. discriminate H1.
  - rewrite !append_cons in Heq. injection Heq as -> Heq.
    cbn [all_digits] in H1, H2.
    apply andb_true_iff in H1 as [_ H1]. apply andb_true_iff in H2 as [_ H2].
    destruct (IH d2 H1 H2 Heq) as [-> ->]. auto.
Qed.

Lemma number_to_string_all_digits n : all_digits (number_to_string n) = true.
Proof.
  destruct (number_to_string_digits n) as (c & r & -> & Hc & Hr).
  cbn [all_digits]. now rewrite Hc, Hr.
Qed.

Lemma number_to_string_inj n m : number_to_string n = number_to_string m -> n = m.
Proof.
  intros H. pose proof (number_to_string_reads_back n) as Hn.
  rewrite H, number_to_string_reads_back in Hn. now injection Hn.
Qed.

(** X14. The stored name tells the clock reading and the sanitised name
    apart: two stored names are equal only if both readings and both
    sanitised names are. So the same file sent again at another millisecond
    gets another name. *)
Theorem filename_cb_injective (now1 now2 : N) (name1 name2 : string) :
  filename_cb now1 name1 = filename_cb now2 name2 ->
  now1 = now2 /\ safeName name1 = safeName name2.
Proof.
  unfold filename_cb. intros H.
  change ("-" +:+ safeName name1) with (String "-" (safeName name1)) in H.
  change ("-" +:+ safeName name2) with (String "-" (safeName name2)) in H.
  apply digits_hyphen_split in H as [Hn Hs];
    try apply number_to_string_all_digits.
  split; [now apply number_to_string_inj|exact Hs].
Qed.

Lemma filename_cb_injective_witness :
  filename_cb 5 "a b" = filename_cb 5 "a_b"
  /\ 5%N = 5%N /\ safeName "a b" = safeName "a_b".
Proof.
  split; [reflexivity|].
  exact (filename_cb_injective 5 5 "a b" "a_b" eq_refl).
Defined.

(** ** The relay settings read from the environment *)







